(** * llms_checker: a shallow embedding of [llms_checker.py]

    The program reads a list of domains, probes [<domain>/llms.txt] once per
    domain over HTTP(S) and reports which domains answered with a 2xx status.

    Python values are modelled as follows.
    - [str] is a list of Unicode code points ([pystr]); a code point is an [N].
    - [int] is [Z]; [Optional[T]] is [option T].
    - An exception that leaves a function is the [Raise] case of [result].
    - The parts of the Python standard library the program calls
      ([str] methods, [urllib.parse], [urllib.request.urlopen], [csv]) are
      modelled after CPython 3.11; the two pieces that need Unicode or IP
      address tables ([unicodedata.normalize], [ipaddress.ip_address]) and
      the outside world (network, files) are section variables. *)

From Stdlib Require Import List NArith ZArith String Ascii Bool Lia.
From Stdlib Require Import DecimalString.
Import ListNotations.

Local Open Scope N_scope.
Local Open Scope list_scope.

(** ** Python strings *)

Definition char := N.
Definition pystr := list char.

(** An ASCII literal as a Python string. *)
Definition py (s : string) : pystr :=
  map N_of_ascii (list_ascii_of_string s).

(** A one-character ASCII literal as a code point. *)
Definition ch (s : string) : char :=
  match s with
  | String a _ => N_of_ascii a
  | EmptyString => 0
  end.

Definition pystr_eqb (a b : pystr) : bool :=
  if list_eq_dec N.eq_dec a b then true else false.

(** Truthiness of a [str]: [if s] / [if not s]. *)
Definition truthy (s : pystr) : bool :=
  match s with [] => false | _ :: _ => true end.

(** [c.isspace()], the predicate behind [str.strip()] without argument:
    the code points with [Py_UNICODE_ISSPACE]. *)
Definition isspace (c : char) : bool :=
  ((0x09 <=? c) && (c <=? 0x0d))
  || ((0x1c <=? c) && (c <=? 0x20))
  || (c =? 0x85) || (c =? 0xa0) || (c =? 0x1680)
  || ((0x2000 <=? c) && (c <=? 0x200a))
  || (c =? 0x2028) || (c =? 0x2029) || (c =? 0x202f)
  || (c =? 0x205f) || (c =? 0x3000).

(** [s.lstrip(chars)] with the character class given as a predicate. *)
Fixpoint lstrip_by (p : char -> bool) (s : pystr) : pystr :=
  match s with
  | [] => []
  | c :: t => if p c then lstrip_by p t else s
  end.

(** [s.rstrip(chars)]: every trailing character of the class is removed. *)
Fixpoint rstrip_by (p : char -> bool) (s : pystr) : pystr :=
  match s with
  | [] => []
  | c :: t =>
      match rstrip_by p t with
      | [] => if p c then [] else [c]
      | r => c :: r
      end
  end.

(** [s.strip()] *)
Definition strip (s : pystr) : pystr :=
  rstrip_by isspace (lstrip_by isspace s).

(** [s.rstrip("/")] *)
Definition rstrip_slash (s : pystr) : pystr :=
  rstrip_by (N.eqb (ch "/")) s.

(** [s.startswith(prefix)] *)
Fixpoint startswith (prefix s : pystr) : bool :=
  match prefix, s with
  | [], _ => true
  | _ :: _, [] => false
  | a :: p', b :: s' => (a =? b) && startswith p' s'
  end.

(** [c in s] *)
Definition contains (c : char) (s : pystr) : bool :=
  existsb (N.eqb c) s.

(** [s.find(c)]: index of the first occurrence, [None] for Python's -1. *)
Fixpoint find_char (c : char) (s : pystr) : option nat :=
  match s with
  | [] => None
  | d :: t => if d =? c then Some 0%nat else option_map S (find_char c t)
  end.

(** [s.replace(c, empty)] for a one-character [c]: every [c] is removed. *)
Definition remove_char (c : char) (s : pystr) : pystr :=
  filter (fun d => negb (d =? c)) s.

(** [s.partition(c)]: text before the first [c], whether [c] was found, and
    the text after it; [(s, false, [])] when [c] does not occur. *)
Fixpoint partition_at (c : char) (s : pystr) : pystr * bool * pystr :=
  match s with
  | [] => ([], false, [])
  | d :: t =>
      if d =? c then ([], true, t)
      else let '(b, f, a) := partition_at c t in (d :: b, f, a)
  end.

(** [s.rpartition(c)[2]]: the text after the last [c], all of [s] when [c]
    does not occur. *)
Fixpoint after_last (c : char) (s : pystr) : pystr :=
  match s with
  | [] => []
  | d :: t =>
      if contains c t then after_last c t
      else if d =? c then t else s
  end.

(** [sep.join(parts)] *)
Fixpoint join (sep : pystr) (parts : list pystr) : pystr :=
  match parts with
  | [] => []
  | [x] => x
  | x :: rest => x ++ sep ++ join sep rest
  end.

(** [c.lower()] on the ASCII letters (the only place it is used is a URL
    scheme, whose characters are ASCII). *)
Definition lower_char (c : char) : char :=
  if (0x41 <=? c) && (c <=? 0x5a) then c + 0x20 else c.

Definition lower (s : pystr) : pystr := map lower_char s.

Definition is_ascii_alpha (c : char) : bool :=
  ((0x41 <=? c) && (c <=? 0x5a)) || ((0x61 <=? c) && (c <=? 0x7a)).

Definition is_ascii_digit (c : char) : bool :=
  (0x30 <=? c) && (c <=? 0x39).

Definition is_hex_digit (c : char) : bool :=
  is_ascii_digit c
  || ((0x41 <=? c) && (c <=? 0x46)) || ((0x61 <=? c) && (c <=? 0x66)).

(** [s.isascii()] *)
Definition isascii (s : pystr) : bool := forallb (fun c => c <? 0x80) s.

(** ['%s' % n] for an [int]. *)
Definition str_of_int (n : Z) : pystr :=
  py (NilZero.string_of_int (Z.to_int n)).

(** ** Exceptions *)

Inductive exn : Type :=
| ValueError (msg : pystr)
| FileNotFoundError (msg : pystr)
| HTTPError (code : Z) (msg : pystr)
| URLError (reason : pystr)
| OtherException (msg : pystr).

Inductive result (A : Type) : Type :=
| Ok (a : A)
| Raise (e : exn).
Arguments Ok {A} a.
Arguments Raise {A} e.

Definition bind {A B : Type} (r : result A) (k : A -> result B) : result B :=
  match r with
  | Ok a => k a
  | Raise e => Raise e
  end.

Notation "x <- r ;; k" := (bind r (fun x => k))
  (at level 61, r at next level, right associativity).

(** [str(e)] *)
Definition str_of_exn (e : exn) : pystr :=
  match e with
  | ValueError m => m
  | FileNotFoundError m => m
  | HTTPError code m => py "HTTP Error " ++ str_of_int code ++ py ": " ++ m
  | URLError r => py "<urlopen error " ++ r ++ py ">"
  | OtherException m => m
  end.

(** ** [normalize_domain] *)

Definition has_scheme (domain : pystr) : bool :=
  startswith (py "http://") domain || startswith (py "https://") domain.

Definition normalize_domain (domain : pystr) : pystr :=
  let domain := strip domain in
  if negb (truthy domain) then []
  else if has_scheme domain then rstrip_slash domain
  else py "https://" ++ rstrip_slash domain.

(** ** [urllib.parse] *)

(** [ipaddress.ip_address(hostname)]: the address family, or the message of
    the [ValueError] it raises. *)
Inductive ip_parse : Type :=
| IPv4Address
| IPv6Address
| NotAnAddress (msg : pystr).

Record ParseResult : Type := mkParseResult {
  scheme : pystr;
  netloc : pystr;
  path : pystr;
  params : pystr;
  query : pystr;
  fragment : pystr
}.

(** [parsed._replace(path=p)] *)
Definition replace_path (parsed : ParseResult) (p : pystr) : ParseResult :=
  mkParseResult (scheme parsed) (netloc parsed) p
                (params parsed) (query parsed) (fragment parsed).

Definition uses_netloc : list pystr :=
  [] :: map py ["ftp"; "http"; "gopher"; "nntp"; "telnet";
          "imap"; "wais"; "file"; "mms"; "https"; "shttp";
          "snews"; "prospero"; "rtsp"; "rtspu"; "rsync";
          "svn"; "svn+ssh"; "sftp"; "nfs"; "git"; "git+ssh";
          "ws"; "wss"]%string.

Definition uses_params : list pystr :=
  [] :: map py ["ftp"; "hdl"; "prospero"; "http"; "imap";
          "https"; "shttp"; "rtsp"; "rtspu"; "sip"; "sips";
          "mms"; "sftp"; "tel"]%string.

Definition str_in (s : pystr) (l : list pystr) : bool :=
  existsb (pystr_eqb s) l.

(** [c in scheme_chars] *)
Definition is_scheme_char (c : char) : bool :=
  is_ascii_alpha c || is_ascii_digit c
  || (c =? ch "+") || (c =? ch "-") || (c =? ch ".").

(** [c in _WHATWG_C0_CONTROL_OR_SPACE] *)
Definition is_c0_control_or_space (c : char) : bool := c <=? 0x20.

(** The loop over [_UNSAFE_URL_BYTES_TO_REMOVE]. *)
Definition remove_unsafe (url : pystr) : pystr :=
  remove_char 0x0a (remove_char 0x0d (remove_char 0x09 url)).

(** The scheme step of [urlsplit]: [(scheme, rest)]. *)
Definition split_scheme (url : pystr) : pystr * pystr :=
  match find_char (ch ":") url, url with
  | Some (S i), c0 :: _ =>
      if is_ascii_alpha c0 && forallb is_scheme_char (firstn (S i) url)
      then (lower (firstn (S i) url), skipn (S (S i)) url)
      else ([], url)
  | _, _ => ([], url)
  end.

Definition is_netloc_delim (c : char) : bool :=
  (c =? ch "/") || (c =? ch "?") || (c =? ch "#").

(** [_splitnetloc(url, 2)] on a [url] whose first two characters have been
    dropped already: the text up to the first of [/?#], and the rest. *)
Fixpoint splitnetloc (s : pystr) : pystr * pystr :=
  match s with
  | [] => ([], [])
  | c :: t =>
      if is_netloc_delim c then ([], s)
      else let '(n, r) := splitnetloc t in (c :: n, r)
  end.

(** [url.split(c, 1)] under the guard [c in url]; [(url, [])] otherwise. *)
Definition split_first (c : char) (url : pystr) : pystr * pystr :=
  let '(b, _, a) := partition_at c url in (b, a).

(** [re.match(r"\Av[a-fA-F0-9]+\..+\Z", hostname)] for a [hostname] that
    starts with [v]; [tail] is the text after that [v]: hexadecimal digits,
    at least one, a dot, and at least one character, none a line feed. *)
Definition ipvfuture_tail_ok (tail : pystr) : bool :=
  let rest := lstrip_by is_hex_digit tail in
  negb (Nat.eqb (List.length rest) (List.length tail))
  && match rest with
     | c :: after =>
         (c =? ch ".") && truthy after && negb (contains 0x0a after)
     | [] => false
     end.

Section UrllibParse.

(** [unicodedata.normalize('NFKC', s)] *)
Variable nfkc : pystr -> pystr.
(** [ipaddress.ip_address(s)] *)
Variable ip_address : pystr -> ip_parse.

Definition invalid_ipv6 : exn := ValueError (py "Invalid IPv6 URL").

(** [_check_bracketed_host] *)
Definition check_bracketed_host (hostname : pystr) : result unit :=
  if startswith (py "v") hostname then
    if ipvfuture_tail_ok (tl hostname) then Ok tt
    else Raise (ValueError (py "IPvFuture address is invalid"))
  else
    match ip_address hostname with
    | IPv6Address => Ok tt
    | IPv4Address =>
        Raise (ValueError (py "An IPv4 address cannot be in brackets"))
    | NotAnAddress m => Raise (ValueError m)
    end.

(** [_check_bracketed_netloc] *)
Definition check_bracketed_netloc (netloc : pystr) : result unit :=
  let hostname_and_port := after_last (ch "@") netloc in
  let '(before_bracket, have_open_br, bracketed) :=
    partition_at (ch "[") hostname_and_port in
  if have_open_br then
    if truthy before_bracket then Raise invalid_ipv6
    else
      let '(hostname, _, port) := partition_at (ch "]") bracketed in
      if truthy port && negb (startswith (py ":") port)
      then Raise invalid_ipv6
      else check_bracketed_host hostname
  else
    let '(hostname, _, _) := partition_at (ch ":") hostname_and_port in
    check_bracketed_host hostname.

(** [_checknetloc] *)
Definition checknetloc (netloc : pystr) : result unit :=
  if negb (truthy netloc) || isascii netloc then Ok tt
  else
    let n := remove_char (ch "?") (remove_char (ch "#")
               (remove_char (ch ":") (remove_char (ch "@") netloc))) in
    let netloc2 := nfkc n in
    if pystr_eqb n netloc2 then Ok tt
    else if existsb (fun c => contains c netloc2) (py "/?#@:")
    then Raise (ValueError
                  (py "netloc '" ++ netloc ++
                   py "' contains invalid characters under NFKC normalization"))
    else Ok tt.

(** The netloc step of [urlsplit], for [url[:2] == '//']. *)
Definition split_netloc_checked (url : pystr) : result (pystr * pystr) :=
  match url with
  | c1 :: c2 :: t =>
      if (c1 =? ch "/") && (c2 =? ch "/") then
        let '(netloc, rest) := splitnetloc t in
        let lb := contains (ch "[") netloc in
        let rb := contains (ch "]") netloc in
        if (lb && negb rb) || (rb && negb lb) then Raise invalid_ipv6
        else if lb && rb then
          _ <- check_bracketed_netloc netloc ;; Ok (netloc, rest)
        else Ok (netloc, rest)
      else Ok ([], url)
  | _ => Ok ([], url)
  end.

(** [urlsplit(url)], returned as scheme, netloc, path, query, fragment. *)
Definition urlsplit (url : pystr)
  : result (pystr * pystr * pystr * pystr * pystr) :=
  let url := lstrip_by is_c0_control_or_space url in
  let url := remove_unsafe url in
  let '(scheme, url) := split_scheme url in
  nr <- split_netloc_checked url ;;
  let '(netloc, url) := nr in
  let '(url, fragment) := split_first (ch "#") url in
  let '(url, query) := split_first (ch "?") url in
  _ <- checknetloc netloc ;;
  Ok (scheme, netloc, url, query, fragment).

(** [_splitparams] under the guard [';' in url]. *)
Definition splitparams (url : pystr) : pystr * pystr :=
  if contains (ch "/") url then
    let last_segment := after_last (ch "/") url in
    let head := firstn (List.length url - List.length last_segment) url in
    if contains (ch ";") last_segment then
      let '(b, a) := split_first (ch ";") last_segment in (head ++ b, a)
    else (url, [])
  else split_first (ch ";") url.

(** [urlparse(url)] *)
Definition urlparse (url : pystr) : result ParseResult :=
  sr <- urlsplit url ;;
  let '(scheme, netloc, url, query, fragment) := sr in
  let '(url, params) :=
    if str_in scheme uses_params && contains (ch ";") url
    then splitparams url else (url, []) in
  Ok (mkParseResult scheme netloc url params query fragment).

End UrllibParse.

(** [urlunsplit((scheme, netloc, url, query, fragment))] *)
Definition urlunsplit (scheme netloc url query fragment : pystr) : pystr :=
  let url :=
    if truthy netloc
       || (truthy scheme && str_in scheme uses_netloc
           && negb (startswith (py "//") url))
    then
      let url := if truthy url && negb (startswith (py "/") url)
                 then py "/" ++ url else url in
      py "//" ++ netloc ++ url
    else url in
  let url := if truthy scheme then scheme ++ py ":" ++ url else url in
  let url := if truthy query then url ++ py "?" ++ query else url in
  let url := if truthy fragment then url ++ py "#" ++ fragment else url in
  url.

(** [urlunparse(parsed)] *)
Definition urlunparse (parsed : ParseResult) : pystr :=
  let url := if truthy (params parsed)
             then path parsed ++ py ";" ++ params parsed
             else path parsed in
  urlunsplit (scheme parsed) (netloc parsed) url
             (query parsed) (fragment parsed).

(** ** [build_llms_url] *)

Section BuildUrl.

Variable nfkc : pystr -> pystr.
Variable ip_address : pystr -> ip_parse.

Definition build_llms_url (base_url : pystr) : result pystr :=
  parsed <- urlparse nfkc ip_address base_url ;;
  let path := rstrip_slash (path parsed) in
  let path := if truthy path then path ++ py "/llms.txt"
              else py "/llms.txt" in
  Ok (urlunparse (replace_path parsed path)).

End BuildUrl.

(** ** [urllib.request.urlopen] *)

(** What the other side did with one GET request, after the opener has
    followed redirects. *)
Inductive exchange : Type :=
| Replied (code : Z) (msg : pystr)
    (** a final HTTP response with this status line *)
| Unreachable (reason : pystr)
    (** no response: DNS, connection, timeout or TLS failure, reported by
        [urlopen] as [URLError]; the field is [str(e.reason)] *)
| Failed (msg : pystr).
    (** any other exception [e] raised under [urlopen]; the field is
        [str(e)] *)

(** [urlopen(req, timeout).getcode()] for the default opener.  Its
    [HTTPErrorProcessor] hands every response whose code is outside
    [200 <= code < 300] to the error handlers, and
    [HTTPDefaultErrorHandler.http_error_default] raises
    [HTTPError(url, code, msg, hdrs, fp)]; only a 2xx response is returned. *)
Definition urlopen (x : exchange) : result Z :=
  match x with
  | Replied code msg =>
      if ((200 <=? code) && (code <? 300))%Z then Ok code
      else Raise (HTTPError code msg)
  | Unreachable reason => Raise (URLError reason)
  | Failed msg => Raise (OtherException msg)
  end.

(** ** The data model *)

Record DomainCheckResult : Type := mkResult {
  domain : pystr;
  url_checked : pystr;
  has_llms_txt : bool;
  http_status : option Z;
  error : option pystr
}.

(** A file being iterated: the items it yields, and how the iteration ends
    (end of file, or an exception such as a decoding error). *)
Inductive stream (A : Type) : Type :=
| Eof
| Next (x : A) (rest : stream A)
| Broken (e : exn).
Arguments Eof {A}.
Arguments Next {A} x rest.
Arguments Broken {A} e.

Fixpoint of_list {A : Type} (l : list A) : stream A :=
  match l with
  | [] => Eof
  | x :: t => Next x (of_list t)
  end.

(** A [dict] with [str] keys and [Optional[str]] values, the most recent
    assignment first. *)
Definition pydict := list (pystr * option pystr).

Definition dict_set (k : pystr) (v : option pystr) (d : pydict) : pydict :=
  (k, v) :: d.

(** [d.get(k)]: [None] for a missing key. *)
Fixpoint dict_get (k : pystr) (d : pydict) : option pystr :=
  match d with
  | [] => None
  | (k', v) :: rest => if pystr_eqb k k' then v else dict_get k rest
  end.

(** The row [csv.DictReader.__next__] builds from a non-empty record:
    [dict(zip(fieldnames, row))], then [restval = None] for the field names
    beyond the end of a short row.  (The [restkey] entry of a long row has
    the key [None], which no column name equals.) *)
Definition dict_row (fieldnames row : list pystr) : pydict :=
  let d := fold_left (fun d kv => dict_set (fst kv) (Some (snd kv)) d)
                     (combine fieldnames row) [] in
  fold_left (fun d k => dict_set k None d)
            (skipn (List.length row) fieldnames) d.

(** ** [csv.writer] with the default [excel] dialect *)

Definition needs_quotes (field : pystr) : bool :=
  existsb (fun c => (c =? ch ",") || (c =? 0x22) || (c =? 0x0d) || (c =? 0x0a))
          field.

Definition double_quotes (field : pystr) : pystr :=
  flat_map (fun c => if c =? 0x22 then [c; c] else [c]) field.

Definition csv_field (field : pystr) : pystr :=
  if needs_quotes field then [0x22] ++ double_quotes field ++ [0x22]
  else field.

(** [writer.writerow(fields)]: the text written for one record. *)
Definition writerow (fields : list pystr) : pystr :=
  let rec := join (py ",") (map csv_field fields) in
  let rec := match fields, rec with
             | _ :: _, [] => [0x22; 0x22]
             | _, _ => rec
             end in
  rec ++ [0x0d; 0x0a].

(** The two fields [write_csv] writes for one result. *)
Definition csv_fields (r : DomainCheckResult) : list pystr :=
  [domain r; if has_llms_txt r then py "yes" else py "no"].

(** The text [write_csv] writes: the header, then one record per result. *)
Fixpoint csv_rows (results : list DomainCheckResult) : pystr :=
  match results with
  | [] => []
  | r :: rest => writerow (csv_fields r) ++ csv_rows rest
  end.

Definition csv_text (results : list DomainCheckResult) : pystr :=
  writerow [py "domain"; py "contains_llms_txt"] ++ csv_rows results.

(** ** The program *)

Inductive input_format_t : Type := Text | Csv.

(** How a run of [main] ends. *)
Inductive outcome : Type :=
| Returned                (** [main] returns; the process exits with 0 *)
| Exit (code : Z)         (** [sys.exit(code)] *)
| Uncaught (e : exn).     (** an exception leaves [main]: traceback *)

Definition exit_status (o : outcome) : Z :=
  match o with
  | Returned => 0
  | Exit code => code
  | Uncaught _ => 1
  end%Z.

(** What a run has done to the outside world so far: the URLs requested,
    the lines printed to standard error, the files written.  Standard
    output is not part of the model. *)
Record state : Type := mkState {
  requested : list pystr;
  stderr : list pystr;
  written : list (pystr * pystr)
}.

Definition initial : state := mkState [] [] [].

Definition eprint (line : pystr) (s : state) : state :=
  mkState (requested s) (stderr s ++ [line]) (written s).

(** Computations that may raise and that act on the outside world. *)
Definition M (A : Type) : Type := state -> result A * state.

Definition ret {A : Type} (a : A) : M A := fun s => (Ok a, s).

Definition lift {A : Type} (r : result A) : M A := fun s => (r, s).

Definition bindM {A B : Type} (m : M A) (k : A -> M B) : M B :=
  fun s =>
    match m s with
    | (Ok a, s') => k a s'
    | (Raise e, s') => (Raise e, s')
    end.

(** [try: m  except ... as e: handler e] *)
Definition try_except {A : Type} (m : M A) (handler : exn -> M A) : M A :=
  fun s =>
    match m s with
    | (Ok a, s') => (Ok a, s')
    | (Raise e, s') => handler e s'
    end.

Notation "x <~ m ;; k" := (bindM m (fun x => k))
  (at level 61, m at next level, right associativity).

Section Program.

(** [unicodedata.normalize('NFKC', s)] and [ipaddress.ip_address(s)],
    used by [urlparse]. *)
Variable nfkc : pystr -> pystr.
Variable ip_address : pystr -> ip_parse.

(** Python's [float], the type of the timeout. *)
Variable float : Type.

(** The network: what happens to a GET of a URL with a timeout, given the
    URLs requested before it. *)
Variable network : list pystr -> pystr -> float -> exchange.

(** The file system: iterating the text file at a path line by line,
    iterating the [csv.reader] records of the file at a path, and writing
    a text to a path ([None] when the write succeeds). *)
Variable open_text : pystr -> result (stream pystr).
Variable open_csv : pystr -> result (stream (list pystr)).
Variable write_file : pystr -> pystr -> option exn.

(** [with urlopen(req, timeout=timeout) as resp: resp.getcode()] *)
Definition send (url : pystr) (timeout : float) : M Z :=
  fun s =>
    (urlopen (network (requested s) url timeout),
     mkState (requested s ++ [url]) (stderr s) (written s)).

Definition check_single_domain (domain : pystr) (timeout : float)
  : M DomainCheckResult :=
  let base_url := normalize_domain domain in
  if negb (truthy base_url) then
    ret (mkResult domain [] false None (Some (py "empty_domain")))
  else
    llms_url <~ lift (build_llms_url nfkc ip_address base_url) ;;
    try_except
      (status <~ send llms_url timeout ;;
       let has_llms := ((200 <=? status) && (status <? 300))%Z in
       ret (mkResult domain llms_url has_llms (Some status) None))
      (fun e =>
         match e with
         | HTTPError status _ =>
             let has_llms := ((200 <=? status) && (status <? 300))%Z in
             ret (mkResult domain llms_url has_llms (Some status)
                           (if negb has_llms then Some (str_of_exn e)
                            else None))
         | URLError reason =>
             ret (mkResult domain llms_url false None (Some reason))
         | _ =>
             ret (mkResult domain llms_url false None
                           (Some (str_of_exn e)))
         end).

(** The loop of [load_domains]. *)
Fixpoint load_domains_loop (f : stream pystr) (domains : list pystr)
  : result (list pystr) :=
  match f with
  | Eof => Ok domains
  | Broken e => Raise e
  | Next line rest =>
      let raw := strip line in
      if negb (truthy raw) || startswith (py "#") raw
      then load_domains_loop rest domains
      else load_domains_loop rest (domains ++ [raw])
  end.

Definition load_domains (path : pystr) : result (list pystr) :=
  f <- open_text path ;; load_domains_loop f [].

(** [reader.fieldnames]: the first record, [None] for an empty file; and
    the records that follow it. *)
Definition fieldnames (reader : stream (list pystr))
  : result (option (list pystr) * stream (list pystr)) :=
  match reader with
  | Eof => Ok (None, Eof)
  | Next row rest => Ok (Some row, rest)
  | Broken e => Raise e
  end.

(** [reader.fieldnames or []] *)
Definition columns (header : option (list pystr)) : list pystr :=
  match header with
  | Some l => l
  | None => []
  end.

Definition missing_column_message (domain_column : pystr)
                                  (names : list pystr) : pystr :=
  py "CSV file does not contain a '" ++ domain_column ++ py "' column. "
  ++ py "Available columns: " ++ join (py ", ") names.

(** The loop of [load_domains_from_csv]; [DictReader] skips the empty
    records. *)
Fixpoint load_csv_loop (names : list pystr) (domain_column : pystr)
                       (reader : stream (list pystr))
                       (domains : list pystr) : result (list pystr) :=
  match reader with
  | Eof => Ok domains
  | Broken e => Raise e
  | Next [] rest => load_csv_loop names domain_column rest domains
  | Next row rest =>
      let cell := match dict_get domain_column (dict_row names row) with
                  | Some v => v
                  | None => []
                  end in
      let raw := strip cell in
      if negb (truthy raw)
      then load_csv_loop names domain_column rest domains
      else load_csv_loop names domain_column rest (domains ++ [raw])
  end.

Definition load_domains_from_csv (path domain_column : pystr)
  : result (list pystr) :=
  reader <- open_csv path ;;
  hr <- fieldnames reader ;;
  let '(header, rest) := hr in
  let names := columns header in
  if negb (str_in domain_column names)
  then Raise (ValueError (missing_column_message domain_column names))
  else load_csv_loop names domain_column rest [].

Definition write_csv (results : list DomainCheckResult)
                     (output_path : pystr) : M unit :=
  fun s =>
    match write_file output_path (csv_text results) with
    | None =>
        (Ok tt, mkState (requested s) (stderr s)
                        (written s ++ [(output_path, csv_text results)]))
    | Some e => (Raise e, s)
    end.

Record Args : Type := mkArgs {
  input_file : pystr;
  output_csv : option pystr;
  timeout : float;
  input_format : input_format_t;
  domain_column : pystr
}.

(** The loop of [main] over the loaded domains. *)
Fixpoint check_all (domains : list pystr) (timeout : float)
                   (results : list DomainCheckResult)
  : M (list DomainCheckResult) :=
  match domains with
  | [] => ret results
  | d :: rest =>
      result <~ check_single_domain d timeout ;;
      check_all rest timeout (results ++ [result])
  end.

Definition main (args : Args) (s : state) : outcome * state :=
  let loaded :=
    match input_format args with
    | Csv => load_domains_from_csv (input_file args) (domain_column args)
    | Text => load_domains (input_file args)
    end in
  match loaded with
  | Raise (FileNotFoundError _) =>
      (Exit 1, eprint (py "Input file not found: " ++ input_file args) s)
  | Raise e =>
      (Exit 1, eprint (py "Error reading input file: " ++ str_of_exn e) s)
  | Ok [] =>
      (Exit 1, eprint (py "No domains found in the input file.") s)
  | Ok domains =>
      match check_all domains (timeout args) [] s with
      | (Raise e, s') => (Uncaught e, s')
      | (Ok results, s') =>
          (* print_summary(results) writes to standard output only *)
          match output_csv args with
          | Some output_path =>
              if truthy output_path then
                match write_csv results output_path s' with
                | (Ok _, s'') => (Returned, s'')
                | (Raise e, s'') =>
                    (Returned,
                     eprint (py "Failed to write CSV file: "
                             ++ str_of_exn e) s'')
                end
              else (Returned, s')
          | None => (Returned, s')
          end
      end
  end.

End Program.

Arguments mkArgs {float} _ _ _ _ _.
Arguments input_file {float} _.
Arguments output_csv {float} _.
Arguments timeout {float} _.
Arguments input_format {float} _.
Arguments domain_column {float} _.

(** ** A concrete environment

    Used to run the program on examples: ASCII text, on which NFKC
    normalization is the identity; no bracketed IP literal; timeouts in
    whole seconds; a network on which [a.com] serves the file, [b.com]
    refuses the connection and every other host answers 404. *)

Definition nfkc_ascii (s : pystr) : pystr := s.

Definition ip_address_none (s : pystr) : ip_parse :=
  NotAnAddress (py "does not appear to be an IPv4 or IPv6 address").

Definition example_network (history : list pystr) (url : pystr)
                           (timeout : Z) : exchange :=
  if pystr_eqb url (py "https://a.com/llms.txt")
  then Replied 200 (py "OK")
  else if pystr_eqb url (py "https://b.com/llms.txt")
  then Unreachable (py "[Errno 111] Connection refused")
  else Replied 404 (py "Not Found").

Definition example_lines : list pystr :=
  [py "# comment"; []; py "a.com"; py "b.com"].

Definition example_open_text (path : pystr) : result (stream pystr) :=
  if pystr_eqb path (py "domains.txt") then Ok (of_list example_lines)
  else if pystr_eqb path (py "bad.txt")
  then Ok (of_list [py "a.com"; py "["; py "b.com"])
  else Raise (FileNotFoundError
                (py "[Errno 2] No such file or directory")).

Definition example_open_csv (path : pystr)
  : result (stream (list pystr)) :=
  if pystr_eqb path (py "sites.csv")
  then Ok (of_list [[py "name"; py "url"]; [py "A"; py "a.com"]])
  else Raise (FileNotFoundError
                (py "[Errno 2] No such file or directory")).

Definition example_write_file (path content : pystr) : option exn := None.

Definition example_result_a : DomainCheckResult :=
  mkResult (py "a.com") (py "https://a.com/llms.txt") true (Some 200%Z) None.

Definition example_result_b : DomainCheckResult :=
  mkResult (py "b.com") (py "https://b.com/llms.txt") false None
           (Some (py "[Errno 111] Connection refused")).

Definition example_result_c : DomainCheckResult :=
  mkResult (py "c.com") (py "https://c.com/llms.txt") false (Some 404%Z)
           (Some (py "HTTP Error 404: Not Found")).

(** [c.com] again, had the request timed out instead. *)
Definition example_result_c_timeout : DomainCheckResult :=
  mkResult (py "c.com") (py "https://c.com/llms.txt") false None
           (Some (py "timed out")).

(** Three command lines: a text input, a text input that holds the
    domain ["["], and a CSV input without the default column. *)
Definition example_args : Args Z :=
  mkArgs (py "domains.txt") (Some (py "out.csv")) 5%Z Text (py "domain").

Definition example_bad_args : Args Z :=
  mkArgs (py "bad.txt") (Some (py "out.csv")) 5%Z Text (py "domain").

Definition example_csv_args : Args Z :=
  mkArgs (py "sites.csv") None 5%Z Csv (py "domain").

Definition example_check (d : pystr) : M DomainCheckResult :=
  check_single_domain nfkc_ascii ip_address_none Z example_network d 5%Z.

Definition example_main (args : Args Z) : state -> outcome * state :=
  main nfkc_ascii ip_address_none Z example_network
       example_open_text example_open_csv example_write_file args.

(** ** Vocabulary of the specification *)

(** The first character of a line that is not white space. *)
Definition first_non_space (line : pystr) : option char :=
  hd_error (lstrip_by isspace line).

(** A line of a text input that holds a domain: it is not empty after
    trimming and its first non-white-space character is not [#]. *)
Definition is_domain_line (line : pystr) : bool :=
  match first_non_space line with
  | Some c => negb (c =? ch "#")
  | None => false
  end.

(** The state after one more request. *)
Definition sent (s : state) (url : pystr) : state :=
  mkState (requested s ++ [url]) (stderr s) (written s).

(** The result that describes what the network did with a request: a 2xx
    reply, another reply, no reply, or an unexpected failure. *)
Definition result_of_exchange (d url : pystr) (x : exchange)
  : DomainCheckResult :=
  match x with
  | Replied code msg =>
      if ((200 <=? code) && (code <? 300))%Z
      then mkResult d url true (Some code) None
      else mkResult d url false (Some code)
                    (Some (str_of_exn (HTTPError code msg)))
  | Unreachable reason => mkResult d url false None (Some reason)
  | Failed msg => mkResult d url false None (Some msg)
  end.

(** A domain whose probe URL can be built: it is empty after
    normalization, or [build_llms_url] returns for it. *)
Definition url_builds (nfkc : pystr -> pystr)
                      (ip_address : pystr -> ip_parse) (d : pystr) : Prop :=
  normalize_domain d = []
  \/ exists url, build_llms_url nfkc ip_address (normalize_domain d) = Ok url.

(** A success status: [200 <= status < 300]. *)
Definition success_status (status : Z) : Prop := (200 <= status < 300)%Z.

(** Two results that agree on the fields [write_csv] reads. *)
Definition same_csv_fields (a b : DomainCheckResult) : Prop :=
  domain a = domain b /\ has_llms_txt a = has_llms_txt b.

(** ** [print_summary] *)

(** [f"{s:<30}"]: [s] padded with spaces on the right to 30 characters. *)
Definition ljust30 (s : pystr) : pystr :=
  s ++ repeat (ch " ") (30 - List.length s).

(** [sum(1 for r in results if r.has_llms_txt)] *)
Definition count_with_llms (results : list DomainCheckResult) : nat :=
  List.length (filter has_llms_txt results).

(** [r.error is not None and r.http_status is None] *)
Definition no_response (r : DomainCheckResult) : bool :=
  match error r, http_status r with
  | Some _, None => true
  | _, _ => false
  end.

(** [[r for r in results if r.error is not None and r.http_status is None]] *)
Definition failed_results (results : list DomainCheckResult)
  : list DomainCheckResult :=
  filter no_response results.

Definition str_of_nat (n : nat) : pystr := str_of_int (Z.of_nat n).

(** The line printed for one result in the per-domain table. *)
Definition result_line (r : DomainCheckResult) : pystr :=
  let status_str := if has_llms_txt r then py "YES" else py "NO" in
  let extra :=
    match http_status r with
    | Some status => py " (HTTP " ++ str_of_int status ++ py ")"
    | None =>
        match error r with
        | Some ((_ :: _) as e) => py " (error: " ++ e ++ py ")"
        | _ => []
        end
    end in
  ljust30 (domain r) ++ py " -> llms.txt: " ++ status_str ++ extra.

(** The line printed for one result in the list of failed domains;
    [r.error] is not [None] there. *)
Definition failed_line (r : DomainCheckResult) : pystr :=
  py "- " ++ domain r ++ py ": "
  ++ match error r with Some e => e | None => py "None" end.

(** [print_summary(results)]: the texts of its [print] calls, in order. *)
Definition print_summary (results : list DomainCheckResult) : list pystr :=
  let total_in_results := List.length results in
  let with_llms := count_with_llms results in
  let failed := failed_results results in
  [py "Total domains processed: " ++ str_of_nat total_in_results;
   py "Domains with llms.txt: " ++ str_of_nat with_llms;
   py "Domains that failed to check (no response): "
   ++ str_of_nat (List.length failed);
   [];
   py "Per-domain results:";
   repeat (ch "-") 60]
  ++ map result_line results
  ++ match failed with
     | [] => []
     | _ :: _ =>
         [[]; py "Failed domains (unable to obtain):"]
         ++ map failed_line failed
     end.

(** ** More vocabulary *)

(** A file that yields the items of [l] and then fails with [e]. *)
Fixpoint broken_after {A : Type} (l : list A) (e : exn) : stream A :=
  match l with
  | [] => Broken e
  | x :: t => Next x (broken_after t e)
  end.

(** A text of ASCII characters without square brackets. *)
Definition plain_ascii (s : pystr) : Prop :=
  forall c, In c s -> c < 0x80 /\ c <> ch "[" /\ c <> ch "]".

Definition plain_asciib (s : pystr) : bool :=
  forallb (fun c => (c <? 0x80) && negb (c =? ch "[") && negb (c =? ch "]"))
          s.

(** What [main] loads for its arguments: the CSV column or the text
    lines of the input file. *)
Definition load_input {float : Type}
           (open_text : pystr -> result (stream pystr))
           (open_csv : pystr -> result (stream (list pystr)))
           (args : Args float) : result (list pystr) :=
  match input_format args with
  | Csv => load_domains_from_csv open_csv (input_file args)
                                 (domain_column args)
  | Text => load_domains open_text (input_file args)
  end.

(** A result without HTTP status. *)
Definition no_status (r : DomainCheckResult) : bool :=
  match http_status r with
  | None => true
  | Some _ => false
  end.

(** What the summary relies on in a result: it has no status exactly when
    it counts as failed, and it has a status when the file was found. *)
Definition summarizable (r : DomainCheckResult) : Prop :=
  no_response r = no_status r
  /\ (has_llms_txt r = true -> no_status r = false).


(** A field [csv.writer] writes without quotes. *)
Definition plain_field (field : pystr) : Prop := needs_quotes field = false.

(** The field of a record at a position; empty when the record is too
    short. *)
Definition cell_at (i : nat) (row : list pystr) : pystr := nth i row [].

(** A text without white space at either end. *)
Definition trimmed (s : pystr) : Prop :=
  (forall c t, s = c :: t -> isspace c = false)
  /\ (forall b c, s = b ++ [c] -> isspace c = false).

(** An entry the loaders hand to the checker: not empty and trimmed. *)
Definition usable (d : pystr) : Prop := d <> [] /\ trimmed d.

(** ** [csv.reader] with the default [excel] dialect *)

(** The lines a text file opened with [newline=""] yields: a line ends
    behind a line feed, behind a carriage return and a line feed, or
    behind a carriage return alone; the line endings are kept.  [cur] is
    the part of the current line already seen. *)
Fixpoint lines_of (cur s : pystr) : list pystr :=
  match s with
  | [] => match cur with [] => [] | _ :: _ => [cur] end
  | c :: t =>
      if c =? 0x0a then (cur ++ [c]) :: lines_of [] t
      else if c =? 0x0d then
        match t with
        | c' :: t' =>
            if c' =? 0x0a then (cur ++ [c; c']) :: lines_of [] t'
            else (cur ++ [c]) :: lines_of [] t
        | [] => (cur ++ [c]) :: lines_of [] t
        end
      else lines_of (cur ++ [c]) t
  end.

(** The states of the parser of [_csv.c] that the [excel] dialect
    reaches. *)
Inductive rstate : Type :=
| START_RECORD
| START_FIELD
| IN_FIELD
| IN_QUOTED_FIELD
| QUOTE_IN_QUOTED_FIELD
| EAT_CRNL.

(** The parser: its state, the characters of the field being read and the
    fields of the record read so far. *)
Record parser : Type := mkParser {
  pstate : rstate;
  pfield : pystr;
  pfields : list pystr
}.

(** [parse_reset] *)
Definition fresh_parser : parser := mkParser START_RECORD [] [].

(** [csv.field_size_limit()] *)
Definition field_limit : N := 131072.

(** [parse_add_char] *)
Definition add_char (p : parser) (st : rstate) (c : char) : result parser :=
  if field_limit <=? N.of_nat (List.length (pfield p))
  then Raise (OtherException
                (py "field larger than field limit (131072)"))
  else Ok (mkParser st (pfield p ++ [c]) (pfields p)).

(** [parse_save_field] *)
Definition save_field (p : parser) (st : rstate) : parser :=
  mkParser st [] (pfields p ++ [pfield p]).

Definition set_state (p : parser) (st : rstate) : parser :=
  mkParser st (pfield p) (pfields p).

Definition is_newline (c : char) : bool := (c =? 0x0a) || (c =? 0x0d).

(** [parse_process_char] for a character of a line. *)
Definition process_char (p : parser) (c : char) : result parser :=
  match pstate p with
  | START_RECORD =>
      if is_newline c then Ok (set_state p EAT_CRNL)
      else if c =? 0x22 then Ok (set_state p IN_QUOTED_FIELD)
      else if c =? ch "," then Ok (save_field p START_FIELD)
      else add_char p IN_FIELD c
  | START_FIELD =>
      if is_newline c then Ok (save_field p EAT_CRNL)
      else if c =? 0x22 then Ok (set_state p IN_QUOTED_FIELD)
      else if c =? ch "," then Ok (save_field p START_FIELD)
      else add_char p IN_FIELD c
  | IN_FIELD =>
      if is_newline c then Ok (save_field p EAT_CRNL)
      else if c =? ch "," then Ok (save_field p START_FIELD)
      else add_char p IN_FIELD c
  | IN_QUOTED_FIELD =>
      if c =? 0x22 then Ok (set_state p QUOTE_IN_QUOTED_FIELD)
      else add_char p IN_QUOTED_FIELD c
  | QUOTE_IN_QUOTED_FIELD =>
      if c =? 0x22 then add_char p IN_QUOTED_FIELD c
      else if c =? ch "," then Ok (save_field p START_FIELD)
      else if is_newline c then Ok (save_field p EAT_CRNL)
      else add_char p IN_FIELD c
  | EAT_CRNL =>
      if is_newline c then Ok p
      else Raise (OtherException
                    (py "new-line character seen in unquoted field - do you need to open the file in universal-newline mode?"))
  end.

(** [parse_process_char] for the end of a line. *)
Definition process_eol (p : parser) : parser :=
  match pstate p with
  | START_RECORD => p
  | START_FIELD | IN_FIELD | QUOTE_IN_QUOTED_FIELD =>
      save_field p START_RECORD
  | IN_QUOTED_FIELD => p
  | EAT_CRNL => set_state p START_RECORD
  end.

(** The characters of one line, then its end. *)
Fixpoint process_line (p : parser) (line : pystr) : result parser :=
  match line with
  | [] => Ok (process_eol p)
  | c :: t => p' <- process_char p c ;; process_line p' t
  end.

(** The records [csv.reader] yields for the lines of a file: a record is
    complete when the parser is back at the start of a record at the end
    of a line; at the end of the file an open quoted field is closed. *)
Fixpoint read_records (lines : list pystr) (p : parser)
  : stream (list pystr) :=
  match lines with
  | [] =>
      match pfield p, pstate p with
      | _ :: _, _ | _, IN_QUOTED_FIELD =>
          Next (pfields (save_field p START_RECORD)) Eof
      | _, _ => Eof
      end
  | line :: rest =>
      match process_line p line with
      | Raise e => Broken e
      | Ok p' =>
          match pstate p' with
          | START_RECORD => Next (pfields p') (read_records rest fresh_parser)
          | _ => read_records rest p'
          end
      end
  end.

(** [csv.reader(f)] for a file with this text, opened with
    [newline=""]. *)
Definition csv_reader (text : pystr) : stream (list pystr) :=
  read_records (lines_of [] text) fresh_parser.

(** *** The reader, character by character

    The same records, computed in one pass over the text: each character
    goes to the parser as it is read, and the end of a line is signalled
    behind a line feed, or behind a carriage return that no line feed
    follows.  [in_line] tells whether the current line has characters. *)

(** The characters of a part of a line. *)
Fixpoint process_chars (p : parser) (s : pystr) : result parser :=
  match s with
  | [] => Ok p
  | c :: t => p' <- process_char p c ;; process_chars p' t
  end.

(** The end of a line: a complete record is yielded and the parser reset;
    [k] reads on. *)
Definition line_end (k : parser -> stream (list pystr)) (p : parser)
  : stream (list pystr) :=
  match pstate (process_eol p) with
  | START_RECORD => Next (pfields (process_eol p)) (k fresh_parser)
  | _ => k (process_eol p)
  end.

Fixpoint scan (s : pystr) (p : parser) (in_line : bool)
  : stream (list pystr) :=
  match s with
  | [] =>
      if in_line then line_end (read_records []) p else read_records [] p
  | c :: t =>
      match process_char p c with
      | Raise e => Broken e
      | Ok p1 =>
          if c =? 0x0a then line_end (fun q => scan t q false) p1
          else if c =? 0x0d then
            match t with
            | c' :: t' =>
                if c' =? 0x0a then
                  match process_char p1 c' with
                  | Raise e => Broken e
                  | Ok p2 => line_end (fun q => scan t' q false) p2
                  end
                else line_end (fun q => scan t q false) p1
            | [] => line_end (fun q => scan t q false) p1
            end
          else scan t p1 true
      end
  end.

(** A field short enough for the reader. *)
Definition fits (field : pystr) : Prop :=
  N.of_nat (List.length field) <= field_limit.

(** The text [csv.writer] writes for a list of records. *)
Definition writerows (rows : list (list pystr)) : pystr :=
  flat_map writerow rows.

(** A parser between two fields: at the start of a record or behind a
    comma, with no character of the next field read. *)
Definition between_fields (p : parser) : Prop :=
  pfield p = []
  /\ (pstate p = START_RECORD \/ pstate p = START_FIELD).

(** A parser that has read the content of a field and stands before the
    delimiter behind it. *)
Definition after_field (p : parser) (f : pystr) : Prop :=
  pfield p = f
  /\ (pstate p = IN_FIELD \/ pstate p = QUOTE_IN_QUOTED_FIELD
      \/ (f = [] /\ (pstate p = START_RECORD \/ pstate p = START_FIELD))).

(** ** More examples *)

(** A text input whose reading fails after two lines, a disk that
    refuses every write, and more command lines. *)
Definition example_decode_error : exn :=
  OtherException (py "'utf-8' codec can't decode byte 0xff").

Definition example_open_broken (path : pystr) : result (stream pystr) :=
  Ok (broken_after [py "a.com"; py "b.com"] example_decode_error).


Definition example_missing_args : Args Z :=
  mkArgs (py "nope.txt") (Some (py "out.csv")) 5%Z Text (py "domain").

Definition example_quiet_args : Args Z :=
  mkArgs (py "domains.txt") None 5%Z Text (py "domain").

Definition example_results : list DomainCheckResult :=
  [example_result_a; example_result_b].

(** A CSV input that is the report written for the example results. *)
Definition example_open_report (path : pystr)
  : result (stream (list pystr)) :=
  Ok (csv_reader (csv_text example_results)).

(** * Properties *)

(** ** Facts about the string primitives *)

Section StripFacts.

Variable p : char -> bool.

Lemma lstrip_by_split (s : pystr) :
  exists pre, s = pre ++ lstrip_by p s /\ forallb p pre = true.
Proof.
  induction s as [|c t [pre [Heq Hall]]]; simpl.
  - exists []. split; reflexivity.
  - destruct (p c) eqn:Hc.
    + exists (c :: pre). simpl. rewrite Hc, Hall. split; [congruence | reflexivity].
    + exists []. split; reflexivity.
Qed.

Lemma lstrip_by_head (s : pystr) (c : char) (t : pystr) :
  lstrip_by p s = c :: t -> p c = false.
Proof.
  induction s as [|d u IH]; simpl; [discriminate|].
  destruct (p d) eqn:Hd; [exact IH|].
  intros H; injection H as -> _. exact Hd.
Qed.

Lemma rstrip_by_split (s : pystr) :
  exists suf, s = rstrip_by p s ++ suf /\ forallb p suf = true.
Proof.
  induction s as [|c t [suf [Heq Hall]]]; simpl.
  - exists []. split; reflexivity.
  - destruct (rstrip_by p t) as [|r0 r] eqn:Hr.
    + destruct (p c) eqn:Hc.
      * exists (c :: suf). simpl in *. rewrite Hc, Hall.
        split; [congruence | reflexivity].
      * exists suf. simpl in *. split; [congruence | exact Hall].
    + exists suf. split; [|exact Hall].
      simpl. f_equal. exact Heq.
Qed.

Lemma rstrip_by_last (s b : pystr) (c : char) :
  rstrip_by p s = b ++ [c] -> p c = false.
Proof.
  revert b. induction s as [|d t IH]; intros b; simpl.
  - destruct b; discriminate.
  - destruct (rstrip_by p t) as [|r0 r] eqn:Hr.
    + destruct (p d) eqn:Hd.
      * destruct b; discriminate.
      * destruct b as [|b0 [|b1 b']]; simpl; intros H;
          [injection H as <-; exact Hd | discriminate | discriminate].
    + destruct b as [|b0 b']; simpl; intros H.
      * discriminate.
      * injection H as _ H. exact (IH b' H).
Qed.

Lemma rstrip_by_keeps_head (c : char) (t : pystr) :
  p c = false -> exists t', rstrip_by p (c :: t) = c :: t'.
Proof.
  intros Hc. simpl. destruct (rstrip_by p t) as [|r0 r].
  - rewrite Hc. exists []. reflexivity.
  - exists (r0 :: r). reflexivity.
Qed.

End StripFacts.

(** [strip] removes a run of white space at each end and nothing else, and
    what is left neither starts nor ends with white space. *)
Lemma strip_spec (s : pystr) :
  exists l r,
    s = l ++ strip s ++ r
    /\ forallb isspace l = true /\ forallb isspace r = true
    /\ (forall c t, strip s = c :: t -> isspace c = false)
    /\ (forall b c, strip s = b ++ [c] -> isspace c = false).
Proof.
  unfold strip.
  destruct (lstrip_by_split isspace s) as [l [Hl Hlall]].
  destruct (rstrip_by_split isspace (lstrip_by isspace s)) as [r [Hr Hrall]].
  exists l, r. repeat split; try assumption.
  - rewrite <- Hr. exact Hl.
  - intros c t H.
    destruct (lstrip_by isspace s) as [|d u] eqn:Hls; [discriminate|].
    pose proof (lstrip_by_head isspace s d u Hls) as Hd.
    destruct (rstrip_by_keeps_head isspace d u Hd) as [t' Ht'].
    rewrite Ht' in H. injection H as <- _. exact Hd.
  - intros b c H. exact (rstrip_by_last isspace _ b c H).
Qed.

(** The first character of a stripped line is the first character of the
    line that is not white space. *)
Lemma strip_head (s : pystr) :
  hd_error (strip s) = hd_error (lstrip_by isspace s).
Proof.
  unfold strip.
  destruct (lstrip_by isspace s) as [|d u] eqn:Hls; [reflexivity|].
  pose proof (lstrip_by_head isspace s d u Hls) as Hd.
  destruct (rstrip_by_keeps_head isspace d u Hd) as [t' ->]. reflexivity.
Qed.



Lemma pystr_eqb_eq (a b : pystr) : pystr_eqb a b = true <-> a = b.
Proof.
  unfold pystr_eqb. destruct (list_eq_dec N.eq_dec a b); split;
    congruence.
Qed.

Lemma str_in_In (s : pystr) (l : list pystr) :
  str_in s l = true <-> In s l.
Proof.
  unfold str_in. rewrite existsb_exists. split.
  - intros [x [Hin Heq]]. apply pystr_eqb_eq in Heq. subst. exact Hin.
  - intros Hin. exists s. split; [exact Hin | now apply pystr_eqb_eq].
Qed.

(** ** [normalize_domain] (C3) *)



(** ** [build_llms_url] (C2, C8) *)

Section BuildUrlFacts.

Variable nfkc : pystr -> pystr.
Variable ip_address : pystr -> ip_parse.

(** The probe path is the base path without its trailing slashes,
    followed by [/llms.txt]. *)
Lemma probe_path_eq (p : pystr) :
  (if truthy (rstrip_slash p) then rstrip_slash p ++ py "/llms.txt"
   else py "/llms.txt")
  = rstrip_slash p ++ py "/llms.txt".
Proof.
  destruct (rstrip_slash p); reflexivity.
Qed.

(** [urlunparse] puts a query and a fragment behind the rest of the URL. *)
Lemma urlunparse_query_fragment (sc nl pa pr q f : pystr) :
  urlunparse (mkParseResult sc nl pa pr q f)
  = urlunparse (mkParseResult sc nl pa pr [] [])
    ++ (if truthy q then py "?" ++ q else [])
    ++ (if truthy f then py "#" ++ f else []).
Proof.
  unfold urlunparse, urlunsplit; cbn [scheme netloc path params query
                                      fragment truthy].
  destruct (truthy q), (truthy f);
    repeat rewrite app_nil_r; repeat rewrite <- app_assoc; reflexivity.
Qed.

(** C2, as amended: for every base URL that [urlparse] accepts,
    [build_llms_url] keeps the query string and the fragment: its result
    is the URL made of the scheme, netloc, parameters and the path
    extended by [/llms.txt], followed by [?query] when the query is not
    empty and by [#fragment] when the fragment is not empty. *)
Theorem build_llms_url_keeps_query_fragment (base : pystr)
                                            (parsed : ParseResult) :
  urlparse nfkc ip_address base = Ok parsed ->
  build_llms_url nfkc ip_address base =
    Ok (urlunparse
          (mkParseResult (scheme parsed) (netloc parsed)
                         (rstrip_slash (path parsed) ++ py "/llms.txt")
                         (params parsed) [] [])
        ++ (if truthy (query parsed) then py "?" ++ query parsed else [])
        ++ (if truthy (fragment parsed)
            then py "#" ++ fragment parsed else [])).
Proof.
  intros H. unfold build_llms_url. rewrite H. cbn [bind].
  rewrite probe_path_eq. unfold replace_path.
  rewrite urlunparse_query_fragment. reflexivity.
Qed.

(** C8: normalization followed by probe-URL construction maps
    ["example.com"] to ["https://example.com/llms.txt"], where the parsed
    path is empty, and ["https://example.com/base/"] to
    ["https://example.com/base/llms.txt"], where the parsed path is
    [/base]. *)
Theorem probe_url_examples :
  build_llms_url nfkc ip_address (normalize_domain (py "example.com"))
  = Ok (py "https://example.com/llms.txt")
  /\ urlparse nfkc ip_address (normalize_domain (py "example.com"))
     = Ok (mkParseResult (py "https") (py "example.com") [] [] [] [])
  /\ build_llms_url nfkc ip_address
       (normalize_domain (py "https://example.com/base/"))
     = Ok (py "https://example.com/base/llms.txt")
  /\ urlparse nfkc ip_address
       (normalize_domain (py "https://example.com/base/"))
     = Ok (mkParseResult (py "https") (py "example.com") (py "/base")
                         [] [] []).
Proof. repeat split. Qed.

End BuildUrlFacts.

(** C2, counterexample: the claim says that the query and the fragment of
    ["https://example.com/a?x=1#f"] are dropped, which would give
    ["https://example.com/a/llms.txt"]; [build_llms_url] returns
    ["https://example.com/a/llms.txt?x=1#f"], whatever the Unicode and IP
    address tables are. *)
Lemma build_llms_url_drops_nothing :
  (forall nfkc ip_address,
      build_llms_url nfkc ip_address (py "https://example.com/a?x=1#f")
      = Ok (py "https://example.com/a/llms.txt?x=1#f"))
  /\ py "https://example.com/a/llms.txt?x=1#f"
     <> py "https://example.com/a/llms.txt".
Proof.
  split; [intros; reflexivity | discriminate].
Qed.

(** The amended C2 at ["https://example.com/a?x=1#f"]. *)
Lemma build_llms_url_keeps_query_fragment_witness :
  urlparse nfkc_ascii ip_address_none (py "https://example.com/a?x=1#f")
  = Ok (mkParseResult (py "https") (py "example.com") (py "/a") []
                      (py "x=1") (py "f"))
  /\ build_llms_url nfkc_ascii ip_address_none
       (py "https://example.com/a?x=1#f")
     = Ok (py "https://example.com/a/llms.txt?x=1#f").
Proof.
  split; [reflexivity|].
  exact (build_llms_url_keeps_query_fragment nfkc_ascii ip_address_none
           (py "https://example.com/a?x=1#f") _ eq_refl).
Defined.

(** ** [check_single_domain] (C1, C4, C5) *)

Section CheckFacts.

Variable nfkc : pystr -> pystr.
Variable ip_address : pystr -> ip_parse.
Variable float : Type.
Variable network : list pystr -> pystr -> float -> exchange.

Let check := check_single_domain nfkc ip_address float network.

(** The three ways a call of [check_single_domain] goes: an empty domain
    gives the [empty_domain] result without a request; a probe URL that
    cannot be built raises; otherwise one request is sent and its outcome
    becomes the result. *)
Lemma check_single_domain_cases (d : pystr) (t : float) (s : state) :
  check d t s =
    if negb (truthy (normalize_domain d))
    then (Ok (mkResult d [] false None (Some (py "empty_domain"))), s)
    else match build_llms_url nfkc ip_address (normalize_domain d) with
         | Raise e => (Raise e, s)
         | Ok url =>
             (Ok (result_of_exchange d url (network (requested s) url t)),
              sent s url)
         end.
Proof.
  unfold check, check_single_domain.
  destruct (negb (truthy (normalize_domain d))); [reflexivity|].
  unfold bindM at 1, lift.
  destruct (build_llms_url nfkc ip_address (normalize_domain d))
    as [url|e]; [|reflexivity].
  unfold try_except, bindM, send, ret, sent, result_of_exchange.
  destruct (network (requested s) url t) as [code msg|reason|msg];
    cbn [urlopen]; [|reflexivity|reflexivity].
  destruct ((200 <=? code) && (code <? 300))%Z eqn:Hc.
  - rewrite Hc. reflexivity.
  - cbn [negb]. rewrite Hc. reflexivity.
Qed.

(** [urlopen] hands a status to the program's normal path only when it
    is a success status. *)
Lemma urlopen_returns_success (x : exchange) (status : Z) :
  urlopen x = Ok status -> success_status status.
Proof.
  destruct x as [code msg|reason|msg]; cbn [urlopen]; try discriminate.
  destruct ((200 <=? code) && (code <? 300))%Z eqn:Hc; [|discriminate].
  intros H; injection H as <-.
  apply andb_prop in Hc as [H1 H2]. unfold success_status. lia.
Qed.

Lemma in_range_iff (code : Z) :
  ((200 <=? code) && (code <? 300))%Z = true <-> success_status code.
Proof.
  unfold success_status. rewrite andb_true_iff, Z.leb_le, Z.ltb_lt.
  reflexivity.
Qed.

(** C4: in every result of [check_single_domain], [has_llms_txt] is true
    exactly when [http_status] is present and is a success status; a
    result without status has [has_llms_txt = false]. *)
Theorem has_llms_txt_iff_success_status
        (d : pystr) (t : float) (s s' : state) (r : DomainCheckResult) :
  check d t s = (Ok r, s') ->
  (has_llms_txt r = true <->
   exists status, http_status r = Some status /\ success_status status)
  /\ (http_status r = None -> has_llms_txt r = false).
Proof.
  rewrite check_single_domain_cases.
  destruct (negb (truthy (normalize_domain d))).
  - intros H; injection H as <- _. cbn. split; [|reflexivity].
    split; [discriminate | intros [st [Hst _]]; discriminate].
  - destruct (build_llms_url nfkc ip_address (normalize_domain d))
      as [url|e]; [|discriminate].
    intros H; injection H as <- _.
    destruct (network (requested s) url t) as [code msg|reason|msg];
      cbn [result_of_exchange].
    + destruct ((200 <=? code) && (code <? 300))%Z eqn:Hc; cbn.
      * split; [|discriminate]. split; [|reflexivity].
        intros _. exists code. split; [reflexivity|].
        now apply in_range_iff.
      * split; [|discriminate]. split; [discriminate|].
        intros [st [Hst Hin]]. injection Hst as <-.
        apply in_range_iff in Hin. congruence.
    + cbn. split; [|reflexivity].
      split; [discriminate | intros [st [Hst _]]; discriminate].
    + cbn. split; [|reflexivity].
      split; [discriminate | intros [st [Hst _]]; discriminate].
Qed.


(** C1, the failing input: for the domain ["["] the probe URL cannot be
    built, [urlparse] raises [ValueError("Invalid IPv6 URL")] before the
    [try] block is entered, and the exception leaves
    [check_single_domain]; no result is produced and no request sent. *)
Theorem check_single_domain_raises_ValueError (t : float) (s : state) :
  check (py "[") t s = (Raise (ValueError (py "Invalid IPv6 URL")), s).
Proof. reflexivity. Qed.

(** Whenever the probe URL can be built, or the domain is empty,
    [check_single_domain] returns a result for the domain. *)
Lemma check_single_domain_returns (d : pystr) (t : float) (s : state) :
  url_builds nfkc ip_address d ->
  exists r s', check d t s = (Ok r, s') /\ domain r = d.
Proof.
  unfold url_builds. intros H. rewrite check_single_domain_cases.
  destruct (normalize_domain d) as [|c b] eqn:Hn; cbn [truthy negb].
  - eexists _, _. split; reflexivity.
  - destruct H as [H|[url H]]; [discriminate|]. rewrite H.
    eexists _, _. split; [reflexivity|].
    destruct (network (requested s) url t) as [code msg|reason|msg];
      cbn [result_of_exchange]; try reflexivity.
    destruct ((200 <=? code) && (code <? 300))%Z; reflexivity.
Qed.

End CheckFacts.

(** C4 at the domain [a.com], which answers 200. *)
Lemma has_llms_txt_iff_success_status_witness :
  example_check (py "a.com") initial
  = (Ok example_result_a, sent initial (py "https://a.com/llms.txt"))
  /\ (has_llms_txt example_result_a = true <->
      exists status,
        http_status example_result_a = Some status /\ success_status status)
  /\ (http_status example_result_a = None ->
      has_llms_txt example_result_a = false).
Proof.
  split; [reflexivity|].
  exact (has_llms_txt_iff_success_status nfkc_ascii ip_address_none Z
           example_network (py "a.com") 5%Z initial _ _ eq_refl).
Defined.


(** ** The loaders (C7, C9) *)

Section LoaderFacts.

Variable open_text : pystr -> result (stream pystr).
Variable open_csv : pystr -> result (stream (list pystr)).

(** The test of the loop of [load_domains] is the test of the
    specification: the line has a first non-white-space character, and
    it is not [#]. *)
Lemma skip_test_is_domain_line (line : pystr) :
  negb (truthy (strip line)) || startswith (py "#") (strip line)
  = negb (is_domain_line line).
Proof.
  unfold is_domain_line, first_non_space.
  rewrite <- strip_head.
  destruct (strip line) as [|c t]; [reflexivity|].
  cbn [truthy negb orb hd_error]. change (py "#") with [ch "#"].
  cbn [startswith]. rewrite andb_true_r, negb_involutive.
  apply N.eqb_sym.
Qed.

Lemma load_domains_loop_spec (lines acc : list pystr) :
  load_domains_loop (of_list lines) acc
  = Ok (acc ++ map strip (filter is_domain_line lines)).
Proof.
  revert acc. induction lines as [|line rest IH]; intros acc.
  - cbn. now rewrite app_nil_r.
  - cbn [of_list load_domains_loop filter].
    rewrite skip_test_is_domain_line.
    destruct (is_domain_line line); cbn [negb map].
    + rewrite IH, <- app_assoc. reflexivity.
    + apply IH.
Qed.

(** C9: for a text input that yields [lines], [load_domains] returns
    the trimmed text of exactly the lines that have a first
    non-white-space character other than [#], in file order. *)
Theorem load_domains_spec (path : pystr) (lines : list pystr) :
  open_text path = Ok (of_list lines) ->
  load_domains open_text path
  = Ok (map strip (filter is_domain_line lines)).
Proof.
  intros H. unfold load_domains. rewrite H. cbn [bind].
  apply load_domains_loop_spec.
Qed.

(** An exception while the file is opened or read leaves [load_domains]. *)
Lemma load_domains_open_fails (path : pystr) (e : exn) :
  open_text path = Raise e -> load_domains open_text path = Raise e.
Proof.
  intros H. unfold load_domains. now rewrite H.
Qed.

(** A missing column makes [load_domains_from_csv] raise a [ValueError]
    whose message ends with the list of the columns the file has. *)
Lemma load_domains_from_csv_missing_column
      (path column : pystr) (reader rest : stream (list pystr))
      (header : option (list pystr)) :
  open_csv path = Ok reader ->
  fieldnames reader = Ok (header, rest) ->
  ~ In column (columns header) ->
  load_domains_from_csv open_csv path column
  = Raise (ValueError (missing_column_message column (columns header))).
Proof.
  intros Hopen Hnames Hnot. unfold load_domains_from_csv.
  rewrite Hopen. cbn [bind]. rewrite Hnames. cbn [bind].
  destruct (str_in column (columns header)) eqn:Hin; [|reflexivity].
  apply str_in_In in Hin. contradiction.
Qed.

End LoaderFacts.

(** C9 at the lines ["# comment"], the empty line, ["a.com"] and
    ["b.com"]: exactly ["a.com"] and ["b.com"] are loaded. *)
Lemma load_domains_spec_witness :
  example_open_text (py "domains.txt") = Ok (of_list example_lines)
  /\ load_domains example_open_text (py "domains.txt")
     = Ok [py "a.com"; py "b.com"].
Proof.
  split; [reflexivity|].
  exact (load_domains_spec example_open_text (py "domains.txt")
           example_lines eq_refl).
Defined.

(** ** [write_csv] (C10) *)

Lemma csv_fields_same (a b : DomainCheckResult) :
  same_csv_fields a b -> csv_fields a = csv_fields b.
Proof.
  intros [Hd Hh]. unfold csv_fields. now rewrite Hd, Hh.
Qed.

Lemma csv_rows_same (rs1 rs2 : list DomainCheckResult) :
  Forall2 same_csv_fields rs1 rs2 -> csv_rows rs1 = csv_rows rs2.
Proof.
  induction 1 as [|a b l1 l2 Hab _ IH]; [reflexivity|].
  cbn [csv_rows]. now rewrite (csv_fields_same a b Hab), IH.
Qed.

(** The text of the CSV file, record by record: the header, then for each
    result, in order, its domain and [yes] or [no]. *)
Lemma csv_text_records (results : list DomainCheckResult) :
  csv_text results
  = writerow [py "domain"; py "contains_llms_txt"]
    ++ List.concat (map (fun r => writerow
                               [domain r;
                                if has_llms_txt r then py "yes" else py "no"])
                   results).
Proof.
  unfold csv_text. f_equal.
  induction results as [|r rest IH]; [reflexivity|].
  cbn [csv_rows map List.concat]. now rewrite IH.
Qed.

(** C10: two result lists of the same length whose entries agree pairwise
    on [domain] and [has_llms_txt] give the same CSV text, and [write_csv]
    acts the same on them, whatever their [url_checked], [http_status] and
    [error] fields are. *)
Theorem write_csv_reads_two_fields
        (write_file : pystr -> pystr -> option exn)
        (rs1 rs2 : list DomainCheckResult) :
  Forall2 same_csv_fields rs1 rs2 ->
  csv_text rs1 = csv_text rs2
  /\ forall output_path s,
       write_csv write_file rs1 output_path s
       = write_csv write_file rs2 output_path s.
Proof.
  intros H.
  assert (Heq : csv_text rs1 = csv_text rs2).
  { unfold csv_text. now rewrite (csv_rows_same rs1 rs2 H). }
  split; [exact Heq|].
  intros output_path s. unfold write_csv. now rewrite Heq.
Qed.

(** C10 at a 404 answer and a timeout for the same domain: the CSV text
    is the same, a [no] row. *)
Lemma write_csv_reads_two_fields_witness :
  Forall2 same_csv_fields [example_result_c] [example_result_c_timeout]
  /\ csv_text [example_result_c] = csv_text [example_result_c_timeout]
  /\ csv_text [example_result_c]
     = py "domain,contains_llms_txt" ++ [0x0d; 0x0a]
       ++ py "c.com,no" ++ [0x0d; 0x0a].
Proof.
  assert (H : Forall2 same_csv_fields
                      [example_result_c] [example_result_c_timeout]).
  { repeat constructor. }
  split; [exact H|]. split; [|reflexivity].
  exact (proj1 (write_csv_reads_two_fields example_write_file _ _ H)).
Defined.

(** ** [main] (C6, C7) *)

Section MainFacts.

Variable nfkc : pystr -> pystr.
Variable ip_address : pystr -> ip_parse.
Variable float : Type.
Variable network : list pystr -> pystr -> float -> exchange.
Variable open_text : pystr -> result (stream pystr).
Variable open_csv : pystr -> result (stream (list pystr)).
Variable write_file : pystr -> pystr -> option exn.

Let check := check_single_domain nfkc ip_address float network.
Let run := main nfkc ip_address float network
                open_text open_csv write_file.
Let loop := check_all nfkc ip_address float network.

(** What [main] loads for its arguments. *)
Let loaded (args : Args float) : result (list pystr) :=
  match input_format args with
  | Csv => load_domains_from_csv open_csv (input_file args)
                                 (domain_column args)
  | Text => load_domains open_text (input_file args)
  end.

(** C7: when the header of a CSV input does not contain the configured
    column, [load_domains_from_csv] raises a [ValueError] whose message
    ends with the list of the available columns; [main] prints it to
    standard error and exits with status 1, and no request has been
    sent. *)
Theorem missing_column_is_fatal
        (args : Args float) (s : state)
        (reader rest : stream (list pystr))
        (header : option (list pystr)) :
  input_format args = Csv ->
  open_csv (input_file args) = Ok reader ->
  fieldnames reader = Ok (header, rest) ->
  ~ In (domain_column args) (columns header) ->
  load_domains_from_csv open_csv (input_file args) (domain_column args)
  = Raise (ValueError (missing_column_message (domain_column args)
                                              (columns header)))
  /\ (exists before,
         missing_column_message (domain_column args) (columns header)
         = before ++ py "Available columns: "
           ++ join (py ", ") (columns header))
  /\ run args s
     = (Exit 1,
        eprint (py "Error reading input file: "
                ++ missing_column_message (domain_column args)
                                          (columns header)) s)
  /\ requested (snd (run args s)) = requested s
  /\ exit_status (fst (run args s)) = 1%Z.
Proof.
  intros Hfmt Hopen Hnames Hnot.
  pose proof (load_domains_from_csv_missing_column open_csv _ _ _ _ _
                Hopen Hnames Hnot) as Hload.
  assert (Hrun : run args s
                 = (Exit 1,
                    eprint (py "Error reading input file: "
                            ++ missing_column_message
                                 (domain_column args) (columns header))
                           s)).
  { unfold run, main. rewrite Hfmt, Hload. reflexivity. }
  split; [exact Hload|]. split.
  - exists (py "CSV file does not contain a '" ++ domain_column args
            ++ py "' column. ").
    unfold missing_column_message.
    repeat rewrite <- app_assoc. reflexivity.
  - split; [exact Hrun|]. rewrite Hrun. split; reflexivity.
Qed.

(** The loop of [main] leaves one result per domain, in order, behind
    the results it started with, when every probe URL can be built. *)
Lemma check_all_returns (domains : list pystr) (t : float)
      (acc : list DomainCheckResult) (s : state) :
  Forall (url_builds nfkc ip_address) domains ->
  exists rs s',
    loop domains t acc s = (Ok (acc ++ rs), s')
    /\ map domain rs = domains
    /\ stderr s' = stderr s /\ written s' = written s.
Proof.
  intros H. revert acc s.
  induction H as [|d rest Hd _ IH]; intros acc s.
  - exists [], s. cbn. rewrite app_nil_r. repeat split.
  - destruct (check_single_domain_returns nfkc ip_address float network
                d t s Hd) as [r [s1 [Hr Hdom]]].
    destruct (IH (acc ++ [r]) s1) as [rs [s2 [Hrs [Hmap [He Hw]]]]].
    exists (r :: rs), s2.
    assert (Hs1 : stderr s1 = stderr s /\ written s1 = written s).
    { rewrite check_single_domain_cases in Hr.
      destruct (negb (truthy (normalize_domain d))).
      - injection Hr as _ <-. split; reflexivity.
      - destruct (build_llms_url nfkc ip_address (normalize_domain d));
          [|discriminate].
        injection Hr as _ <-. split; reflexivity. }
    destruct Hs1 as [He1 Hw1].
    unfold loop in *. cbn [check_all]. unfold bindM at 1.
    rewrite Hr, Hrs, <- app_assoc. cbn [app map].
    rewrite Hdom, Hmap. repeat split; congruence.
Qed.

(** The loop of [main] stops at the first domain whose probe URL cannot
    be built: the exception leaves the loop and the results collected so
    far are lost. *)
Lemma check_all_raises (good : list pystr) (d : pystr)
      (rest : list pystr) (t : float) (acc : list DomainCheckResult)
      (s : state) (e : exn) :
  Forall (url_builds nfkc ip_address) good ->
  normalize_domain d <> [] ->
  build_llms_url nfkc ip_address (normalize_domain d) = Raise e ->
  exists s', loop (good ++ d :: rest) t acc s = (Raise e, s').
Proof.
  intros H Hne Hraise. revert acc s.
  induction H as [|g good' Hg _ IH]; intros acc s.
  - exists s. unfold loop. cbn [app check_all]. unfold bindM at 1.
    rewrite check_single_domain_cases, Hraise.
    destruct (normalize_domain d); [contradiction|reflexivity].
  - destruct (check_single_domain_returns nfkc ip_address float network
                g t s Hg) as [r [s1 [Hr _]]].
    destruct (IH (acc ++ [r]) s1) as [s2 Hs2].
    exists s2. unfold loop in *. cbn [app check_all]. unfold bindM at 1.
    rewrite Hr. exact Hs2.
Qed.

(** When every probe URL can be built, a run with a CSV output path
    writes the header and one record per loaded domain, in input order,
    each the domain and [yes] or [no]. *)
Lemma main_writes_one_record_per_domain
      (args : Args float) (s : state) (domains : list pystr)
      (output_path : pystr) :
  loaded args = Ok domains ->
  domains <> [] ->
  Forall (url_builds nfkc ip_address) domains ->
  output_csv args = Some output_path ->
  truthy output_path = true ->
  (forall content, write_file output_path content = None) ->
  exists rs s',
    run args s = (Returned, s')
    /\ map domain rs = domains
    /\ written s' = written s ++ [(output_path, csv_text rs)].
Proof.
  intros Hload Hne Hall Hout Htruthy Hwrite.
  destruct (check_all_returns domains (timeout args) [] s Hall)
    as [rs [s1 [Hrs [Hmap [_ Hw]]]]].
  exists rs. eexists. unfold run, main. fold (loaded args).
  rewrite Hload. destruct domains as [|d0 ds]; [contradiction|].
  unfold loop in Hrs. rewrite Hrs, Hout, Htruthy.
  unfold write_csv. rewrite Hwrite. cbn [app].
  split; [reflexivity|]. split; [exact Hmap|].
  cbn [written]. now rewrite Hw.
Qed.

End MainFacts.

(** C7 at a CSV input with the columns [name] and [url] and the default
    column [domain]. *)
Lemma missing_column_is_fatal_witness :
  example_open_csv (py "sites.csv")
  = Ok (of_list [[py "name"; py "url"]; [py "A"; py "a.com"]])
  /\ ~ In (py "domain") [py "name"; py "url"]
  /\ example_main example_csv_args initial
     = (Exit 1,
        eprint (py "Error reading input file: CSV file does not contain a 'domain' column. Available columns: name, url")
               initial).
Proof.
  assert (Hnot : ~ In (py "domain") [py "name"; py "url"]).
  { intros [H|[H|[]]]; discriminate. }
  split; [reflexivity|]. split; [exact Hnot|].
  exact (proj1 (proj2 (proj2
           (missing_column_is_fatal nfkc_ascii ip_address_none Z
              example_network example_open_text example_open_csv
              example_write_file example_csv_args initial _ _
              (Some [py "name"; py "url"])
              eq_refl eq_refl eq_refl Hnot)))).
Defined.

(** C6, the failing input: the text input with the lines ["a.com"], ["["]
    and ["b.com"] holds three usable domains; the run requests the probe
    URL of [a.com], then the [ValueError] of ["["] leaves [main]: no result
    list is completed, [b.com] is never requested and no CSV file is
    written. *)
Theorem main_aborts_on_unparsable_domain :
  example_main example_bad_args initial
  = (Uncaught (ValueError (py "Invalid IPv6 URL")),
     mkState [py "https://a.com/llms.txt"] [] []).
Proof. reflexivity. Qed.

(** The run of the specification's example: [a.com] answers 200 and
    [b.com] refuses the connection; the CSV file holds the header,
    [a.com,yes] and [b.com,no]. *)
Example main_example_run :
  example_main example_args initial
  = (Returned,
     mkState [py "https://a.com/llms.txt"; py "https://b.com/llms.txt"] []
             [(py "out.csv",
               py "domain,contains_llms_txt" ++ [0x0d; 0x0a]
               ++ py "a.com,yes" ++ [0x0d; 0x0a]
               ++ py "b.com,no" ++ [0x0d; 0x0a])]).
Proof. reflexivity. Qed.


(** ** The scheme of the probe URL

    [Request(llms_url, ...)], which [check_single_domain] builds before it
    enters the [try] block, raises [ValueError] for a URL without a scheme.
    The probe URL of a normalized domain always starts with [http:] or
    [https:], so that constructor does not raise here. *)

Section SchemeFacts.

Variable nfkc : pystr -> pystr.
Variable ip_address : pystr -> ip_parse.

Lemma startswith_split (pre s : pystr) :
  startswith pre s = true -> exists r, s = pre ++ r.
Proof.
  revert s. induction pre as [|a pre IH]; intros s H.
  - exists s. reflexivity.
  - destruct s as [|b s]; [discriminate|].
    cbn [startswith] in H. apply andb_prop in H as [Hab Hs].
    apply N.eqb_eq in Hab. subst b.
    destruct (IH s Hs) as [r ->]. exists r. reflexivity.
Qed.

(** [rstrip] leaves everything up to the last character outside the class
    in place. *)
Lemma rstrip_by_keeps_prefix (p : char -> bool) (a : pystr) (c : char)
      (b : pystr) :
  p c = false -> exists b', rstrip_by p (a ++ c :: b) = a ++ c :: b'.
Proof.
  intros Hc. induction a as [|x a [b' IH]].
  - exact (rstrip_by_keeps_head p c b Hc).
  - exists b'. cbn [app rstrip_by]. rewrite IH.
    destruct (a ++ c :: b') eqn:E; [|reflexivity].
    destruct a; discriminate.
Qed.

(** A normalized domain that is not empty starts with [http:] or
    [https:]. *)
Lemma normalize_domain_scheme (d : pystr) :
  normalize_domain d <> [] ->
  exists rest,
    normalize_domain d = py "http:" ++ rest
    \/ normalize_domain d = py "https:" ++ rest.
Proof.
  unfold normalize_domain.
  destruct (negb (truthy (strip d))); [intros H; contradiction|].
  intros _. unfold has_scheme.
  destruct (startswith (py "http://") (strip d)) eqn:H1; cbn [orb].
  - destruct (startswith_split _ _ H1) as [r ->].
    destruct (rstrip_by_keeps_prefix (N.eqb (ch "/")) (py "http") (ch ":")
                (py "//" ++ r) eq_refl) as [b' Hb].
    exists b'. left. exact Hb.
  - destruct (startswith (py "https://") (strip d)) eqn:H2.
    + destruct (startswith_split _ _ H2) as [r ->].
      destruct (rstrip_by_keeps_prefix (N.eqb (ch "/")) (py "https")
                  (ch ":") (py "//" ++ r) eq_refl) as [b' Hb].
      exists b'. right. exact Hb.
    + eexists. right. reflexivity.
Qed.

(** The scheme [urlsplit] returns is the one its scheme step finds. *)
Lemma urlparse_scheme (url : pystr) (parsed : ParseResult) :
  urlparse nfkc ip_address url = Ok parsed ->
  scheme parsed
  = fst (split_scheme
           (remove_unsafe (lstrip_by is_c0_control_or_space url))).
Proof.
  unfold urlparse, urlsplit.
  destruct (split_scheme
              (remove_unsafe (lstrip_by is_c0_control_or_space url)))
    as [sc u].
  destruct (split_netloc_checked ip_address u) as [[nl u1]|e];
    cbn [bind]; [|discriminate].
  destruct (split_first (ch "#") u1) as [u2 f].
  destruct (split_first (ch "?") u2) as [u3 q].
  destruct (checknetloc nfkc nl); cbn [bind]; [|discriminate].
  destruct (if str_in sc uses_params && contains (ch ";") u3
            then splitparams u3 else (u3, [])) as [u4 pr].
  intros H; injection H as <-. reflexivity.
Qed.

Lemma startswith_app (pre rest : pystr) :
  startswith pre (pre ++ rest) = true.
Proof.
  induction pre as [|a pre IH]; [reflexivity|].
  cbn [app startswith]. now rewrite N.eqb_refl, IH.
Qed.

(** [urlunparse] starts its result with the scheme and a colon. *)
Lemma urlunparse_scheme (parsed : ParseResult) :
  truthy (scheme parsed) = true ->
  startswith (scheme parsed ++ py ":") (urlunparse parsed) = true.
Proof.
  intros Hsc. unfold urlunparse, urlunsplit. rewrite Hsc.
  destruct (truthy (query parsed)), (truthy (fragment parsed));
    repeat rewrite <- app_assoc; rewrite app_assoc;
    apply startswith_app.
Qed.

(** The probe URL of a normalized domain starts with [http:] or
    [https:]. *)
Lemma probe_url_scheme (d url : pystr) :
  normalize_domain d <> [] ->
  build_llms_url nfkc ip_address (normalize_domain d) = Ok url ->
  startswith (py "http:") url = true
  \/ startswith (py "https:") url = true.
Proof.
  intros Hne Hb. unfold build_llms_url in Hb.
  destruct (urlparse nfkc ip_address (normalize_domain d))
    as [parsed|e] eqn:Hp; [|discriminate].
  cbn [bind] in Hb. cbv zeta in Hb. injection Hb as <-.
  pose proof (urlparse_scheme _ _ Hp) as Hs.
  match goal with
  | |- context [urlunparse ?r] =>
      pose proof (urlunparse_scheme r) as Hu
  end.
  cbn [replace_path scheme] in Hu.
  destruct (normalize_domain_scheme d Hne) as [rest [Hn|Hn]];
    rewrite Hn in Hs.
  - assert (Hsc : scheme parsed = py "http") by exact Hs.
    rewrite Hsc in Hu. left. exact (Hu eq_refl).
  - assert (Hsc : scheme parsed = py "https") by exact Hs.
    rewrite Hsc in Hu. right. exact (Hu eq_refl).
Qed.

End SchemeFacts.


(** * Further properties of the code *)

(** ** More facts about the string primitives *)

Lemma lstrip_by_all (p : char -> bool) (s : pystr) :
  forallb p s = true -> lstrip_by p s = [].
Proof.
  induction s as [|c t IH]; cbn [forallb lstrip_by]; [reflexivity|].
  intros H. apply andb_prop in H as [Hc Ht]. rewrite Hc. exact (IH Ht).
Qed.

Lemma lstrip_by_id (p : char -> bool) (s : pystr) :
  (forall c t, s = c :: t -> p c = false) -> lstrip_by p s = s.
Proof.
  destruct s as [|c t]; [reflexivity|].
  intros H. cbn [lstrip_by]. now rewrite (H c t eq_refl).
Qed.

Lemma rstrip_by_id (p : char -> bool) (s : pystr) :
  (forall b c, s = b ++ [c] -> p c = false) -> rstrip_by p s = s.
Proof.
  induction s as [|x t IH]; [reflexivity|].
  intros H. cbn [rstrip_by].
  destruct t as [|y t'].
  - cbn [rstrip_by]. now rewrite (H [] x eq_refl).
  - rewrite IH; [reflexivity|].
    intros b c Hb. apply (H (x :: b) c). cbn [app]. now rewrite Hb.
Qed.

Lemma In_lstrip_by (p : char -> bool) (s : pystr) (c : char) :
  In c (lstrip_by p s) -> In c s.
Proof.
  destruct (lstrip_by_split p s) as [pre [Heq _]].
  intros H. rewrite Heq. apply in_or_app. now right.
Qed.



Lemma contains_false (c : char) (s : pystr) :
  ~ In c s -> contains c s = false.
Proof.
  intros H. unfold contains.
  destruct (existsb (N.eqb c) s) eqn:E; [|reflexivity].
  apply existsb_exists in E as [x [Hin Hx]].
  apply N.eqb_eq in Hx. subst x. contradiction.
Qed.

(** A text is stripped to nothing exactly when it is white space only. *)
Lemma strip_empty_iff (s : pystr) :
  strip s = [] <-> forallb isspace s = true.
Proof.
  split.
  - intros H. destruct (strip_spec s) as [l [r [Heq [Hl [Hr _]]]]].
    rewrite H in Heq. cbn [app] in Heq. rewrite Heq, forallb_app.
    now rewrite Hl, Hr.
  - intros H. unfold strip. now rewrite (lstrip_by_all isspace s H).
Qed.

Lemma strip_trimmed (s : pystr) : trimmed (strip s).
Proof.
  destruct (strip_spec s) as [l [r [_ [_ [_ [H1 H2]]]]]].
  split; assumption.
Qed.

(** Stripping a trimmed text changes nothing. *)
Lemma strip_id (s : pystr) : trimmed s -> strip s = s.
Proof.
  intros [H1 H2]. unfold strip.
  rewrite (lstrip_by_id isspace s H1). exact (rstrip_by_id isspace s H2).
Qed.

(** ** [normalize_domain], further *)

Lemma normalize_domain_nonempty (d : pystr) :
  strip d <> [] -> normalize_domain d <> [].
Proof.
  intros H. unfold normalize_domain.
  destruct (strip d) as [|c t] eqn:Hs; [contradiction|].
  cbn [truthy negb]. unfold has_scheme.
  destruct (startswith (py "http://") (c :: t)) eqn:H1; cbn [orb].
  - destruct (startswith_split _ _ H1) as [r ->].
    destruct (rstrip_by_keeps_prefix (N.eqb (ch "/")) (py "http") (ch ":")
                (py "//" ++ r) eq_refl) as [b' Hb].
    unfold rstrip_slash.
    change (py "http://" ++ r) with (py "http" ++ ch ":" :: py "//" ++ r).
    rewrite Hb. discriminate.
  - destruct (startswith (py "https://") (c :: t)) eqn:H2.
    + destruct (startswith_split _ _ H2) as [r ->].
      destruct (rstrip_by_keeps_prefix (N.eqb (ch "/")) (py "https")
                  (ch ":") (py "//" ++ r) eq_refl) as [b' Hb].
      unfold rstrip_slash.
      change (py "https://" ++ r)
        with (py "https" ++ ch ":" :: py "//" ++ r).
      rewrite Hb. discriminate.
    + discriminate.
Qed.

(** The normalized domain is empty exactly for a blank input. *)
Lemma normalize_domain_blank_iff (d : pystr) :
  normalize_domain d = [] <-> forallb isspace d = true.
Proof.
  rewrite <- strip_empty_iff. split.
  - intros H. destruct (strip d) as [|c t] eqn:Hs; [reflexivity|].
    exfalso. apply (normalize_domain_nonempty d); [|exact H].
    rewrite Hs. discriminate.
  - intros H. unfold normalize_domain. now rewrite H.
Qed.

(** X1: [normalize_domain] returns the empty string, the signal for the
    [empty_domain] result, exactly for the inputs that consist of white
    space only (the empty input among them); every other result starts
    with [http:] or [https:]. *)
Theorem normalize_domain_empty_or_http (d : pystr) :
  (normalize_domain d = [] <-> forallb isspace d = true)
  /\ (normalize_domain d = []
      \/ startswith (py "http:") (normalize_domain d) = true
      \/ startswith (py "https:") (normalize_domain d) = true).
Proof.
  split; [apply normalize_domain_blank_iff|].
  destruct (normalize_domain d) as [|c t] eqn:Hn; [now left|].
  right.
  assert (Hne : normalize_domain d <> []) by (rewrite Hn; discriminate).
  destruct (normalize_domain_scheme d Hne) as [rest [H|H]];
    rewrite Hn in H; rewrite H.
  - left. apply startswith_app.
  - right. apply startswith_app.
Qed.



(** ** [build_llms_url], further *)

Section BuildUrlMore.

Variable nfkc : pystr -> pystr.
Variable ip_address : pystr -> ip_parse.

Lemma In_splitnetloc (s : pystr) (c : char) :
  In c (fst (splitnetloc s)) -> In c s.
Proof.
  induction s as [|x t IH]; cbn [splitnetloc]; [intros []|].
  destruct (is_netloc_delim x); [intros []|].
  destruct (splitnetloc t) as [n r]. cbn [fst] in *.
  intros [H|H]; [now left | right; exact (IH H)].
Qed.

Lemma In_split_scheme (url : pystr) (c : char) :
  In c (snd (split_scheme url)) -> In c url.
Proof.
  unfold split_scheme.
  destruct (find_char (ch ":") url) as [[|i]|]; destruct url as [|c0 u];
    cbn [snd]; try (intros H; exact H).
  destruct (is_ascii_alpha c0 && forallb is_scheme_char (firstn (S i) (c0 :: u)));
    cbn [snd]; [|intros H; exact H].
  intros H. rewrite <- (firstn_skipn (S (S i)) (c0 :: u)).
  apply in_or_app. now right.
Qed.

Lemma In_remove_unsafe (url : pystr) (c : char) :
  In c (remove_unsafe url) -> In c url.
Proof.
  unfold remove_unsafe, remove_char. intros H.
  repeat (apply filter_In in H as [H _]). exact H.
Qed.

Lemma isascii_forall (s : pystr) :
  (forall c, In c s -> c < 0x80) -> isascii s = true.
Proof.
  intros H. unfold isascii. apply forallb_forall.
  intros c Hc. apply N.ltb_lt. exact (H c Hc).
Qed.

(** The netloc of a text of ASCII characters without square brackets
    passes every check of [urlsplit]. *)
Lemma split_netloc_checked_plain (url : pystr) :
  plain_ascii url ->
  exists netloc rest,
    split_netloc_checked ip_address url = Ok (netloc, rest)
    /\ plain_ascii netloc.
Proof.
  intros Hp. unfold split_netloc_checked.
  destruct url as [|c1 [|c2 t]];
    try (eexists [], _; split; [reflexivity | intros c []]).
  destruct ((c1 =? ch "/") && (c2 =? ch "/"));
    [|eexists [], _; split; [reflexivity | intros c []]].
  pose proof (In_splitnetloc t) as Hin.
  destruct (splitnetloc t) as [nl rest]. cbn [fst] in Hin.
  assert (Hnl : plain_ascii nl).
  { intros c Hc. apply Hp. right. right. exact (Hin c Hc). }
  rewrite (contains_false (ch "[") nl), (contains_false (ch "]") nl).
  - exists nl, rest. split; [reflexivity | exact Hnl].
  - intros H. destruct (Hnl _ H) as [_ [_ E]]. now apply E.
  - intros H. destruct (Hnl _ H) as [_ [E _]]. now apply E.
Qed.

Lemma urlparse_plain (url : pystr) :
  plain_ascii url -> exists parsed, urlparse nfkc ip_address url = Ok parsed.
Proof.
  intros Hp. unfold urlparse, urlsplit.
  pose proof (In_split_scheme
                (remove_unsafe (lstrip_by is_c0_control_or_space url)))
    as Hin.
  destruct (split_scheme
              (remove_unsafe (lstrip_by is_c0_control_or_space url)))
    as [sc u]. cbn [snd] in Hin.
  assert (Hu : plain_ascii u).
  { intros c Hc. apply Hp. apply Hin in Hc. apply In_remove_unsafe in Hc.
    now apply In_lstrip_by in Hc. }
  destruct (split_netloc_checked_plain u Hu) as [nl [rest [-> Hnl]]].
  cbn [bind].
  destruct (split_first (ch "#") rest) as [u2 f].
  destruct (split_first (ch "?") u2) as [u3 q].
  unfold checknetloc.
  rewrite (isascii_forall nl (fun c Hc => proj1 (Hnl c Hc))), orb_true_r.
  cbn [bind].
  destruct (if str_in sc uses_params && contains (ch ";") u3
            then splitparams u3 else (u3, [])) as [u4 pr].
  eexists. reflexivity.
Qed.




(** X2: [build_llms_url] returns a probe URL for every base URL made of
    ASCII characters other than square brackets. *)
Theorem build_llms_url_plain_ascii (base : pystr) :
  plain_ascii base ->
  exists url, build_llms_url nfkc ip_address base = Ok url.
Proof.
  intros Hp. destruct (urlparse_plain base Hp) as [parsed H].
  unfold build_llms_url. rewrite H. cbn [bind]. eexists. reflexivity.
Qed.

(** [urlunparse] ends its result with the path when there are no
    parameters, no query and no fragment. *)
Lemma urlunparse_ends_with_path (sc nl pa : pystr) :
  exists pre, urlunparse (mkParseResult sc nl pa [] [] []) = pre ++ pa.
Proof.
  unfold urlunparse, urlunsplit.
  cbn [scheme netloc path params query fragment truthy].
  destruct (truthy nl || (truthy sc && str_in sc uses_netloc
                          && negb (startswith (py "//") pa)));
    destruct (truthy pa && negb (startswith (py "/") pa));
    destruct (truthy sc);
    eexists; repeat rewrite app_assoc; try reflexivity.
  - instantiate (1 := []). reflexivity.
  - instantiate (1 := []). reflexivity.
Qed.

(** X3: the probe URL of a normalized domain starts with [http:] or
    [https:], and when the normalized domain has no path parameters, no
    query and no fragment it ends with [/llms.txt]. *)
Theorem probe_url_shape (d url : pystr) (parsed : ParseResult) :
  normalize_domain d <> [] ->
  urlparse nfkc ip_address (normalize_domain d) = Ok parsed ->
  build_llms_url nfkc ip_address (normalize_domain d) = Ok url ->
  (startswith (py "http:") url = true
   \/ startswith (py "https:") url = true)
  /\ (params parsed = [] -> query parsed = [] -> fragment parsed = [] ->
      exists pre, url = pre ++ py "/llms.txt").
Proof.
  intros Hne Hp Hb. split.
  - exact (probe_url_scheme nfkc ip_address d url Hne Hb).
  - intros Hpr Hq Hf. unfold build_llms_url in Hb. rewrite Hp in Hb.
    cbn [bind] in Hb. cbv zeta in Hb. rewrite probe_path_eq in Hb.
    unfold replace_path in Hb. rewrite Hpr, Hq, Hf in Hb.
    injection Hb as <-.
    destruct (urlunparse_ends_with_path (scheme parsed) (netloc parsed)
                (rstrip_slash (path parsed) ++ py "/llms.txt"))
      as [pre ->].
    exists (pre ++ rstrip_slash (path parsed)).
    now rewrite app_assoc.
Qed.

End BuildUrlMore.

Lemma plain_ascii_of_bool (s : pystr) :
  plain_asciib s = true -> plain_ascii s.
Proof.
  unfold plain_asciib. rewrite forallb_forall. intros H c Hc.
  specialize (H c Hc). apply andb_prop in H as [H H3].
  apply andb_prop in H as [H1 H2].
  apply N.ltb_lt in H1. apply negb_true_iff, N.eqb_neq in H2, H3.
  repeat split; assumption.
Qed.

(** ** [check_single_domain], further *)

Section CheckMore.

Variable nfkc : pystr -> pystr.
Variable ip_address : pystr -> ip_parse.
Variable float : Type.
Variable network : list pystr -> pystr -> float -> exchange.

Let check := check_single_domain nfkc ip_address float network.

Lemma result_of_exchange_fields (d url : pystr) (x : exchange) :
  domain (result_of_exchange d url x) = d
  /\ url_checked (result_of_exchange d url x) = url.
Proof.
  destruct x as [code msg|reason|msg]; cbn [result_of_exchange];
    [destruct ((200 <=? code) && (code <? 300))%Z|..]; split; reflexivity.
Qed.

Lemma startswith_nonempty (pre s : pystr) :
  pre <> [] -> startswith pre s = true -> s <> [].
Proof.
  destruct pre; [contradiction|]. destruct s; [discriminate|].
  intros _ _. discriminate.
Qed.

Lemma probe_url_nonempty (d url : pystr) :
  normalize_domain d <> [] ->
  build_llms_url nfkc ip_address (normalize_domain d) = Ok url ->
  url <> [].
Proof.
  intros Hne Hb.
  destruct (probe_url_scheme nfkc ip_address d url Hne Hb) as [H|H];
    apply (startswith_nonempty _ _) in H; try exact H; discriminate.
Qed.

(** X4: a call of [check_single_domain] that returns has sent at most one
    request.  Its result carries the input domain verbatim.  Either the
    domain is blank, nothing was requested and [url_checked] is empty; or
    exactly one request was sent, to the probe URL of the normalized
    domain, and [url_checked] is that URL.  Standard error and the files
    are untouched. *)
Theorem check_single_domain_one_request
        (d : pystr) (t : float) (s s' : state) (r : DomainCheckResult) :
  check d t s = (Ok r, s') ->
  domain r = d
  /\ stderr s' = stderr s /\ written s' = written s
  /\ ((forallb isspace d = true /\ url_checked r = []
       /\ requested s' = requested s)
      \/ (forallb isspace d = false /\ url_checked r <> []
          /\ build_llms_url nfkc ip_address (normalize_domain d)
             = Ok (url_checked r)
          /\ requested s' = requested s ++ [url_checked r])).
Proof.
  unfold check. rewrite check_single_domain_cases.
  destruct (normalize_domain d) as [|c b] eqn:Hn; cbn [truthy negb].
  - intros H; injection H as <- <-. cbn.
    repeat split. left. apply normalize_domain_blank_iff in Hn.
    repeat split. exact Hn.
  - destruct (build_llms_url nfkc ip_address (c :: b)) as [url|e] eqn:Hb;
      [|discriminate].
    intros H; injection H as <- <-.
    destruct (result_of_exchange_fields d url
                (network (requested s) url t)) as [Hd Hu].
    rewrite Hd, Hu. repeat split. right.
    assert (Hne : normalize_domain d <> []) by (rewrite Hn; discriminate).
    repeat split.
    + destruct (forallb isspace d) eqn:E; [|reflexivity].
      apply normalize_domain_blank_iff in E. contradiction.
    + rewrite <- Hn in Hb. exact (probe_url_nonempty d url Hne Hb).
Qed.



(** X7: a blank domain (empty or white space only) gives the
    [empty_domain] result, with the input kept verbatim and no URL, and
    sends no request. *)
Theorem check_single_domain_blank (d : pystr) (t : float) (s : state) :
  forallb isspace d = true ->
  check d t s
  = (Ok (mkResult d [] false None (Some (py "empty_domain"))), s).
Proof.
  intros H. apply normalize_domain_blank_iff in H.
  unfold check. rewrite check_single_domain_cases, H. reflexivity.
Qed.

End CheckMore.

(** ** The loaders, further *)

Lemma usable_not_blank (d : pystr) : usable d -> forallb isspace d = false.
Proof.
  intros [Hne [Hhd _]]. destruct d as [|c t]; [contradiction|].
  cbn [forallb]. now rewrite (Hhd c t eq_refl).
Qed.

Lemma usable_strip (line : pystr) :
  truthy (strip line) = true -> usable (strip line).
Proof.
  intros H. split; [|apply strip_trimmed].
  destruct (strip line); [discriminate | discriminate].
Qed.

Section LoaderMore.

Variable open_text : pystr -> result (stream pystr).
Variable open_csv : pystr -> result (stream (list pystr)).

(** What [load_domains] lets through: a usable entry that does not start
    with [#]. *)
Let text_entry (d : pystr) : Prop :=
  usable d /\ startswith (py "#") d = false.

Lemma load_domains_loop_entries (f : stream pystr)
      (acc ds : list pystr) :
  load_domains_loop f acc = Ok ds ->
  Forall text_entry acc -> Forall text_entry ds.
Proof.
  revert acc. induction f as [|line rest IH|e]; intros acc;
    cbn [load_domains_loop].
  - intros H; injection H as <-. auto.
  - destruct (negb (truthy (strip line))
              || startswith (py "#") (strip line)) eqn:E.
    + apply IH.
    + intros H Hacc. apply (IH _ H).
      apply orb_false_elim in E as [E1 E2].
      apply negb_false_iff in E1.
      apply Forall_app. split; [exact Hacc|].
      constructor; [|constructor].
      split; [now apply usable_strip | exact E2].
  - discriminate.
Qed.

(** X8: every entry [load_domains] returns is usable as a domain: it is
    not empty, has no white space at either end, does not start with [#]
    and is not blank, so that the checker never answers [empty_domain]
    for an entry of a text input. *)
Theorem load_domains_entries (path : pystr) (ds : list pystr) :
  load_domains open_text path = Ok ds ->
  Forall (fun d => d <> [] /\ trimmed d
                   /\ startswith (py "#") d = false
                   /\ normalize_domain d <> []) ds.
Proof.
  unfold load_domains.
  destruct (open_text path) as [f|e]; cbn [bind]; [|discriminate].
  intros H. apply load_domains_loop_entries in H; [|constructor].
  apply Forall_impl with (2 := H).
  intros d [[Hne Htr] Hhash]. repeat split; try assumption.
  - apply Htr.
  - apply Htr.
  - intros Hn. apply normalize_domain_blank_iff in Hn.
    rewrite (usable_not_blank d (conj Hne Htr)) in Hn. discriminate.
Qed.

Lemma load_domains_loop_broken (lines acc : list pystr) (e : exn) :
  load_domains_loop (broken_after lines e) acc = Raise e.
Proof.
  revert acc. induction lines as [|line rest IH]; intros acc;
    cbn [broken_after load_domains_loop]; [reflexivity|].
  destruct (negb (truthy (strip line)) || startswith (py "#") (strip line));
    apply IH.
Qed.

(** X9: when reading the text input fails part way (a decoding error,
    say), the exception leaves [load_domains] and the entries read before
    it are not returned. *)
Theorem load_domains_broken (path : pystr) (lines : list pystr) (e : exn) :
  open_text path = Ok (broken_after lines e) ->
  load_domains open_text path = Raise e.
Proof.
  intros H. unfold load_domains. rewrite H. cbn [bind].
  apply load_domains_loop_broken.
Qed.

(** *** Rows as dictionaries *)

Lemma dict_get_set (k k' : pystr) (v : option pystr) (d : pydict) :
  dict_get k (dict_set k' v d)
  = if pystr_eqb k k' then v else dict_get k d.
Proof. reflexivity. Qed.

Lemma pystr_eqb_refl (k : pystr) : pystr_eqb k k = true.
Proof. now apply pystr_eqb_eq. Qed.

Lemma pystr_eqb_neq (a b : pystr) : a <> b -> pystr_eqb a b = false.
Proof.
  intros H. destruct (pystr_eqb a b) eqn:E; [|reflexivity].
  apply pystr_eqb_eq in E. contradiction.
Qed.

(** Setting keys other than [k] does not change what [k] maps to. *)
Lemma dict_get_fold_other (k : pystr) (kvs : list (pystr * pystr))
      (d : pydict) :
  ~ In k (map fst kvs) ->
  dict_get k (fold_left (fun d kv => dict_set (fst kv) (Some (snd kv)) d)
                        kvs d)
  = dict_get k d.
Proof.
  revert d. induction kvs as [|[k' v] rest IH]; intros d Hnot;
    cbn [fold_left]; [reflexivity|].
  rewrite IH.
  - rewrite dict_get_set. cbn [fst snd]. rewrite pystr_eqb_neq; [reflexivity|].
    intros ->. apply Hnot. now left.
  - intros H. apply Hnot. now right.
Qed.

Lemma dict_get_fold_none (k : pystr) (ks : list pystr) (d : pydict) :
  ~ In k ks ->
  dict_get k (fold_left (fun d k' => dict_set k' None d) ks d)
  = dict_get k d.
Proof.
  revert d. induction ks as [|k' rest IH]; intros d Hnot;
    cbn [fold_left]; [reflexivity|].
  rewrite IH.
  - rewrite dict_get_set, pystr_eqb_neq; [reflexivity|].
    intros ->. apply Hnot. now left.
  - intros H. apply Hnot. now right.
Qed.

Lemma dict_get_fold_none_in (k : pystr) (ks : list pystr) (d : pydict) :
  In k ks ->
  dict_get k (fold_left (fun d k' => dict_set k' None d) ks d) = None.
Proof.
  revert d. induction ks as [|k' rest IH]; intros d Hin; [destruct Hin|].
  cbn [fold_left].
  destruct (in_dec (list_eq_dec N.eq_dec) k rest) as [Hr|Hr].
  - now apply IH.
  - rewrite dict_get_fold_none by exact Hr. rewrite dict_get_set.
    destruct Hin as [->|Hin]; [|contradiction].
    now rewrite pystr_eqb_refl.
Qed.

Lemma In_fst_combine (k : pystr) (ks vs : list pystr) :
  In k (map fst (combine ks vs)) -> In k ks.
Proof.
  revert vs. induction ks as [|a ks IH]; intros [|v vs];
    cbn [combine map fst In]; try contradiction.
  intros [H|H]; [now left | right; exact (IH _ H)].
Qed.

Lemma combine_app_same (a b c d : list pystr) :
  List.length a = List.length c ->
  combine (a ++ b) (c ++ d) = combine a c ++ combine b d.
Proof.
  revert c. induction a as [|x a IH]; intros [|y c] H;
    try discriminate; [reflexivity|].
  cbn [app combine]. f_equal. apply IH. now injection H.
Qed.

Lemma In_skipn_list (n : nat) (l : list pystr) (x : pystr) :
  In x (skipn n l) -> In x l.
Proof.
  intros H. rewrite <- (firstn_skipn n l). apply in_or_app. now right.
Qed.

(** The cell of a column that occurs once in the header: the field at the
    position of the column, and nothing for a record that is too short. *)
Lemma dict_row_unique_column (pre post row : list pystr) (col : pystr) :
  ~ In col pre -> ~ In col post ->
  match dict_get col (dict_row (pre ++ col :: post) row) with
  | Some v => v
  | None => []
  end = cell_at (List.length pre) row.
Proof.
  intros Hpre Hpost. unfold dict_row.
  destruct (Nat.le_gt_cases (List.length row) (List.length pre)) as [Hle|Hgt].
  - (* the record ends before the column *)
    rewrite dict_get_fold_none_in.
    + unfold cell_at. now rewrite nth_overflow.
    + rewrite skipn_app.
      apply in_or_app. right.
      replace (List.length row - List.length pre)%nat with 0%nat by lia.
      now left.
  - (* the record reaches the column *)
    assert (Hrow : row = firstn (List.length pre) row
                         ++ cell_at (List.length pre) row
                         :: skipn (S (List.length pre)) row).
    { rewrite <- (firstn_skipn (List.length pre) row) at 1. f_equal.
      unfold cell_at. generalize dependent pre. intros pre. revert row.
      induction pre as [|p pre' IH]; intros [|r row] Hp Hgt;
        cbn in *; try lia; try reflexivity.
      apply IH; [intros H; apply Hp; now right | lia]. }
    set (r1 := firstn (List.length pre) row) in *.
    set (v := cell_at (List.length pre) row) in *.
    set (r2 := skipn (S (List.length pre)) row) in *.
    assert (Hl1 : List.length r1 = List.length pre).
    { unfold r1. rewrite length_firstn. lia. }
    rewrite dict_get_fold_none.
    + rewrite Hrow, combine_app_same by (symmetry; exact Hl1).
      cbn [combine]. rewrite fold_left_app. cbn [fold_left].
      rewrite dict_get_fold_other.
      * rewrite dict_get_set. cbn [fst snd]. now rewrite pystr_eqb_refl.
      * intros H. apply In_fst_combine in H. contradiction.
    + intros H. rewrite skipn_app in H. apply in_app_or in H as [H|H].
      * apply Hpre. exact (In_skipn_list _ _ _ H).
      * replace (List.length row - List.length pre)%nat
          with (S (List.length r2)) in H.
        -- cbn [skipn] in H. apply Hpost. exact (In_skipn_list _ _ _ H).
        -- rewrite Hrow at 1. rewrite length_app. cbn [List.length]. lia.
Qed.

Lemma load_csv_loop_unique_column (pre post : list pystr) (col : pystr)
      (rows : list (list pystr)) (acc : list pystr) :
  ~ In col pre -> ~ In col post ->
  load_csv_loop (pre ++ col :: post) col (of_list rows) acc
  = Ok (acc ++ filter truthy
                  (map (fun row => strip (cell_at (List.length pre) row))
                       rows)).
Proof.
  intros Hpre Hpost. revert acc.
  induction rows as [|row rest IH]; intros acc.
  - cbn. now rewrite app_nil_r.
  - cbn [of_list load_csv_loop map filter].
    destruct row as [|r0 row'].
    + unfold cell_at at 1. destruct (List.length pre); cbn [nth strip];
        exact (IH acc).
    + rewrite (dict_row_unique_column pre post (r0 :: row') col Hpre Hpost).
      destruct (truthy (strip (cell_at (List.length pre) (r0 :: row'))));
        cbn [negb].
      * rewrite IH, <- app_assoc. reflexivity.
      * apply IH.
Qed.

(** X10: when the configured column occurs once in the header of a CSV
    input, [load_domains_from_csv] returns, in file order, the trimmed
    cell of that column for every record where the trimmed cell is not
    empty; records that are blank or end before the column are skipped. *)
Theorem load_domains_from_csv_column
        (path col : pystr) (pre post : list pystr)
        (rows : list (list pystr)) :
  open_csv path = Ok (of_list ((pre ++ col :: post) :: rows)) ->
  ~ In col pre -> ~ In col post ->
  load_domains_from_csv open_csv path col
  = Ok (filter truthy
          (map (fun row => strip (cell_at (List.length pre) row)) rows)).
Proof.
  intros Hopen Hpre Hpost. unfold load_domains_from_csv.
  rewrite Hopen. cbn [bind of_list fieldnames columns].
  assert (Hin : str_in col (pre ++ col :: post) = true).
  { apply str_in_In, in_or_app. right. now left. }
  rewrite Hin. cbn [negb].
  exact (load_csv_loop_unique_column pre post col rows [] Hpre Hpost).
Qed.

Lemma load_csv_loop_entries (names : list pystr) (col : pystr)
      (f : stream (list pystr)) (acc ds : list pystr) :
  load_csv_loop names col f acc = Ok ds ->
  Forall usable acc -> Forall usable ds.
Proof.
  revert acc. induction f as [|row rest IH|e]; intros acc;
    cbn [load_csv_loop].
  - intros H; injection H as <-. auto.
  - destruct row as [|r0 row']; [apply IH|].
    match goal with
    | |- context [truthy (strip ?c)] =>
        destruct (truthy (strip c)) eqn:E
    end; cbn [negb].
    + intros H Hacc. apply (IH _ H). apply Forall_app.
      split; [exact Hacc|]. constructor; [|constructor].
      now apply usable_strip.
    + apply IH.
  - discriminate.
Qed.

(** X11: every entry [load_domains_from_csv] returns is usable as a
    domain: it is not empty, has no white space at either end and is not
    blank; and the call only returns when the header holds the configured
    column. *)
Theorem load_domains_from_csv_entries
        (path col : pystr) (ds : list pystr) :
  load_domains_from_csv open_csv path col = Ok ds ->
  Forall (fun d => d <> [] /\ trimmed d /\ normalize_domain d <> []) ds
  /\ exists header rest,
       open_csv path = Ok (Next header rest) /\ In col header.
Proof.
  unfold load_domains_from_csv.
  destruct (open_csv path) as [f|e]; cbn [bind]; [|discriminate].
  destruct f as [|header rest|e]; cbn [fieldnames bind columns];
    [cbn; discriminate | | discriminate].
  destruct (str_in col header) eqn:Hin; cbn [negb]; [|discriminate].
  intros H. apply load_csv_loop_entries in H; [|constructor]. split.
  - apply Forall_impl with (2 := H).
    intros d [Hne Htr]. repeat split; try assumption; try apply Htr.
    intros Hn. apply normalize_domain_blank_iff in Hn.
    rewrite (usable_not_blank d (conj Hne Htr)) in Hn. discriminate.
  - exists header, rest. split; [reflexivity | now apply str_in_In].
Qed.

End LoaderMore.

(** ** [main], further *)

Section MainMore.

Variable nfkc : pystr -> pystr.
Variable ip_address : pystr -> ip_parse.
Variable float : Type.
Variable network : list pystr -> pystr -> float -> exchange.
Variable open_text : pystr -> result (stream pystr).
Variable open_csv : pystr -> result (stream (list pystr)).
Variable write_file : pystr -> pystr -> option exn.

Let check := check_single_domain nfkc ip_address float network.
Let run := main nfkc ip_address float network
                open_text open_csv write_file.
Let loop := check_all nfkc ip_address float network.
Let loaded := @load_input float open_text open_csv.





(** X14: an input that cannot be loaded, or that holds no usable domain,
    is fatal: [main] prints one line to standard error and exits with
    status 1, without a request and without writing a file.  A missing
    file is reported as [Input file not found: <path>], an empty list as
    [No domains found in the input file.], any other failure with its
    message. *)
Theorem main_input_failure_is_fatal (args : Args float) (s : state) :
  (forall d ds, loaded args <> Ok (d :: ds)) ->
  exists line,
    run args s = (Exit 1, eprint line s)
    /\ (loaded args = Ok [] ->
        line = py "No domains found in the input file.")
    /\ (forall m, loaded args = Raise (FileNotFoundError m) ->
        line = py "Input file not found: " ++ input_file args)
    /\ (forall e, loaded args = Raise e ->
        (forall m, e <> FileNotFoundError m) ->
        line = py "Error reading input file: " ++ str_of_exn e).
Proof.
  intros Hnot. unfold run, main. unfold loaded, load_input in *.
  destruct (match input_format args with
            | Text => load_domains open_text (input_file args)
            | Csv => load_domains_from_csv open_csv (input_file args)
                                           (domain_column args)
            end) as [[|d ds]|e].
  - eexists. split; [reflexivity|]. repeat split; try discriminate.
  - exfalso. exact (Hnot d ds eq_refl).
  - destruct e; eexists; (split; [reflexivity|]);
      (split; [discriminate|]);
      (split;
       [intros m0 H; try discriminate H; reflexivity
       |intros e0 H Hn; injection H as <-; try reflexivity;
        exfalso; exact (Hn _ eq_refl)]).
Qed.


(** The loop of [main] never prints to standard error and never writes a
    file, however it ends. *)
Lemma check_all_keeps_files (domains : list pystr) (t : float)
      (acc : list DomainCheckResult) (s : state) :
  stderr (snd (loop domains t acc s)) = stderr s
  /\ written (snd (loop domains t acc s)) = written s.
Proof.
  revert acc s. induction domains as [|d rest IH]; intros acc s.
  - split; reflexivity.
  - unfold loop in *. cbn [check_all]. unfold bindM at 1 2.
    rewrite check_single_domain_cases.
    destruct (negb (truthy (normalize_domain d))).
    + apply IH.
    + destruct (build_llms_url nfkc ip_address (normalize_domain d))
        as [url|e]; [|split; reflexivity].
      destruct (IH (acc ++ [result_of_exchange d url
                              (network (requested s) url t)])
                   (sent s url)) as [H1 H2].
      split; [exact H1 | exact H2].
Qed.

(** X16: without an output path ([-o] absent or empty) [main] writes no
    file, however the run ends. *)
Theorem main_without_output_writes_nothing
        (args : Args float) (s : state) :
  output_csv args = None \/ output_csv args = Some [] ->
  written (snd (run args s)) = written s.
Proof.
  intros Hout. unfold run, main.
  destruct (match input_format args with
            | Text => load_domains open_text (input_file args)
            | Csv => load_domains_from_csv open_csv (input_file args)
                                           (domain_column args)
            end) as [[|d ds]|e].
  - reflexivity.
  - pose proof (check_all_keeps_files (d :: ds) (timeout args) [] s)
      as [_ Hw].
    unfold loop in Hw.
    destruct (check_all nfkc ip_address float network (d :: ds)
                        (timeout args) [] s) as [[rs|e] s1];
      cbn [snd] in *; [|exact Hw].
    destruct Hout as [-> | ->]; exact Hw.
  - destruct e; reflexivity.
Qed.

End MainMore.

(** ** [print_summary] and [write_csv], further *)

Section SummaryFacts.

Variable nfkc : pystr -> pystr.
Variable ip_address : pystr -> ip_parse.
Variable float : Type.
Variable network : list pystr -> pystr -> float -> exchange.

Let loop := check_all nfkc ip_address float network.

Lemma result_of_exchange_summarizable (d url : pystr) (x : exchange) :
  summarizable (result_of_exchange d url x).
Proof.
  destruct x as [code msg|reason|msg]; cbn [result_of_exchange];
    [destruct ((200 <=? code) && (code <? 300))%Z|..];
    split; cbn; congruence.
Qed.

Lemma check_all_summarizable (domains : list pystr) (t : float)
      (acc rs : list DomainCheckResult) (s s' : state) :
  loop domains t acc s = (Ok rs, s') ->
  Forall summarizable acc ->
  Forall summarizable rs
  /\ List.length rs = (List.length acc + List.length domains)%nat.
Proof.
  revert acc s. induction domains as [|d rest IH]; intros acc s.
  - cbn. intros H Hacc. injection H as <- _. split; [exact Hacc | lia].
  - unfold loop in *. cbn [check_all]. unfold bindM at 1.
    rewrite check_single_domain_cases.
    destruct (negb (truthy (normalize_domain d))).
    + intros H Hacc. apply IH in H.
      * destruct H as [H1 H2]. split; [exact H1|].
        rewrite H2, length_app. cbn [List.length]. lia.
      * apply Forall_app. split; [exact Hacc|].
        constructor; [|constructor]. split; cbn; congruence.
    + destruct (build_llms_url nfkc ip_address (normalize_domain d))
        as [url|e]; [|discriminate].
      intros H Hacc. apply IH in H.
      * destruct H as [H1 H2]. split; [exact H1|].
        rewrite H2, length_app. cbn [List.length]. lia.
      * apply Forall_app. split; [exact Hacc|].
        constructor; [|constructor].
        apply result_of_exchange_summarizable.
Qed.

Lemma failed_results_no_status (rs : list DomainCheckResult) :
  Forall summarizable rs -> failed_results rs = filter no_status rs.
Proof.
  intros H. unfold failed_results. apply filter_ext_in.
  intros r Hr. rewrite Forall_forall in H. exact (proj1 (H r Hr)).
Qed.

Lemma counts_add_up (rs : list DomainCheckResult) :
  Forall summarizable rs ->
  (count_with_llms rs + List.length (filter no_status rs)
   <= List.length rs)%nat.
Proof.
  unfold count_with_llms.
  induction 1 as [|r rest [_ Hr] _ IH]; [cbn; lia|].
  cbn [filter List.length].
  destruct (has_llms_txt r) eqn:E.
  - rewrite (Hr eq_refl). cbn [List.length]. lia.
  - destruct (no_status r); cbn [List.length]; lia.
Qed.

(** X17: for the results of a completed run of the loop of [main],
    [print_summary] reports as failed exactly the results without HTTP
    status; the count of domains with the file and the count of failed
    domains together do not exceed the total, which is the number of input
    domains; and it makes six [print] calls, one per domain and, when some
    domain failed, two more and one per failed domain. *)
Theorem print_summary_of_run
        (domains : list pystr) (t : float) (s s' : state)
        (rs : list DomainCheckResult) :
  loop domains t [] s = (Ok rs, s') ->
  List.length rs = List.length domains
  /\ failed_results rs = filter no_status rs
  /\ (count_with_llms rs + List.length (failed_results rs)
      <= List.length domains)%nat
  /\ List.length (print_summary rs)
     = (6 + List.length domains
        + match failed_results rs with
          | [] => 0
          | _ :: _ => 2 + List.length (failed_results rs)
          end)%nat.
Proof.
  intros H.
  destruct (check_all_summarizable domains t [] rs s s' H (Forall_nil _))
    as [Hs Hlen].
  cbn [List.length plus] in Hlen.
  split; [exact Hlen|]. split; [now apply failed_results_no_status|].
  split.
  - rewrite (failed_results_no_status rs Hs), <- Hlen.
    now apply counts_add_up.
  - unfold print_summary. cbv zeta.
    rewrite length_app, length_app, length_map, Hlen.
    destruct (failed_results rs) as [|f fs].
    + cbn [List.length]. lia.
    + rewrite length_app, length_map. cbn [List.length]. lia.
Qed.

End SummaryFacts.

Lemma csv_field_plain (field : pystr) :
  plain_field field -> csv_field field = field.
Proof.
  unfold plain_field, csv_field. now intros ->.
Qed.

Lemma writerow_plain (r : DomainCheckResult) :
  plain_field (domain r) ->
  writerow (csv_fields r)
  = domain r ++ py ","
    ++ (if has_llms_txt r then py "yes" else py "no") ++ [0x0d; 0x0a].
Proof.
  intros H. unfold writerow, csv_fields. cbn [map join].
  rewrite (csv_field_plain _ H).
  replace (csv_field (if has_llms_txt r then py "yes" else py "no"))
    with (if has_llms_txt r then py "yes" else py "no")
    by (destruct (has_llms_txt r); reflexivity).
  destruct (domain r) as [|c d']; cbn [app];
    repeat rewrite <- app_assoc; reflexivity.
Qed.

(** X18: when no domain holds a comma, a double quote, a carriage return
    or a line feed, the CSV text is the header line followed, for each
    result in order, by the line [<domain>,yes] or [<domain>,no], each
    ended by CR LF. *)
Theorem csv_text_plain (results : list DomainCheckResult) :
  Forall (fun r => plain_field (domain r)) results ->
  csv_text results
  = py "domain,contains_llms_txt" ++ [0x0d; 0x0a]
    ++ flat_map (fun r => domain r ++ py ","
                          ++ (if has_llms_txt r then py "yes" else py "no")
                          ++ [0x0d; 0x0a])
                results.
Proof.
  intros H. unfold csv_text.
  change (writerow [py "domain"; py "contains_llms_txt"])
    with (py "domain,contains_llms_txt" ++ [0x0d; 0x0a]).
  rewrite <- app_assoc. f_equal. f_equal.
  induction H as [|r rest Hr _ IH]; [reflexivity|].
  cbn [csv_rows flat_map]. now rewrite (writerow_plain r Hr), IH.
Qed.

(** ** The further properties at concrete inputs *)


(** X2 at ["https://example.com/docs"]. *)
Lemma build_llms_url_plain_ascii_witness :
  plain_ascii (py "https://example.com/docs")
  /\ exists url,
       build_llms_url nfkc_ascii ip_address_none
         (py "https://example.com/docs") = Ok url.
Proof.
  assert (H : plain_ascii (py "https://example.com/docs"))
    by (apply plain_ascii_of_bool; reflexivity).
  split; [exact H|].
  exact (build_llms_url_plain_ascii nfkc_ascii ip_address_none _ H).
Defined.

(** X3 at the domain ["example.com"]. *)
Lemma probe_url_shape_witness :
  normalize_domain (py "example.com") <> []
  /\ urlparse nfkc_ascii ip_address_none (normalize_domain (py "example.com"))
     = Ok (mkParseResult (py "https") (py "example.com") [] [] [] [])
  /\ build_llms_url nfkc_ascii ip_address_none
       (normalize_domain (py "example.com"))
     = Ok (py "https://example.com/llms.txt")
  /\ (startswith (py "http:") (py "https://example.com/llms.txt") = true
      \/ startswith (py "https:") (py "https://example.com/llms.txt") = true).
Proof.
  assert (H : normalize_domain (py "example.com") <> []) by discriminate.
  split; [exact H|]. split; [reflexivity|]. split; [reflexivity|].
  exact (proj1 (probe_url_shape nfkc_ascii ip_address_none
                  (py "example.com") _ _ H eq_refl eq_refl)).
Defined.

(** X4 at the domain [a.com]. *)
Lemma check_single_domain_one_request_witness :
  example_check (py "a.com") initial
  = (Ok example_result_a, sent initial (py "https://a.com/llms.txt"))
  /\ domain example_result_a = py "a.com".
Proof.
  split; [reflexivity|].
  exact (proj1 (check_single_domain_one_request nfkc_ascii ip_address_none
                  Z example_network (py "a.com") 5%Z initial _ _ eq_refl)).
Defined.



(** X7 at a space, a tab and a no-break space. *)
Lemma check_single_domain_blank_witness :
  forallb isspace [0x20; 0x09; 0xa0] = true
  /\ example_check [0x20; 0x09; 0xa0] initial
     = (Ok (mkResult [0x20; 0x09; 0xa0] [] false None
                     (Some (py "empty_domain"))),
        initial).
Proof.
  split; [reflexivity|].
  exact (check_single_domain_blank nfkc_ascii ip_address_none Z
           example_network [0x20; 0x09; 0xa0] 5%Z initial eq_refl).
Defined.

(** X8 at the text input of the specification's example. *)
Lemma load_domains_entries_witness :
  load_domains example_open_text (py "domains.txt")
  = Ok [py "a.com"; py "b.com"]
  /\ Forall (fun d => d <> [] /\ trimmed d
                      /\ startswith (py "#") d = false
                      /\ normalize_domain d <> [])
            [py "a.com"; py "b.com"].
Proof.
  split; [reflexivity|].
  exact (load_domains_entries example_open_text (py "domains.txt") _
           eq_refl).
Defined.

(** X9 at a file that fails after two lines. *)
Lemma load_domains_broken_witness :
  example_open_broken (py "latin1.txt")
  = Ok (broken_after [py "a.com"; py "b.com"] example_decode_error)
  /\ load_domains example_open_broken (py "latin1.txt")
     = Raise example_decode_error.
Proof.
  split; [reflexivity|].
  exact (load_domains_broken example_open_broken (py "latin1.txt") _ _
           eq_refl).
Defined.

(** X10 at the CSV input with the columns [name] and [url], read by the
    column [url]. *)
Lemma load_domains_from_csv_column_witness :
  example_open_csv (py "sites.csv")
  = Ok (of_list (([py "name"] ++ py "url" :: []) :: [[py "A"; py "a.com"]]))
  /\ ~ In (py "url") [py "name"]
  /\ load_domains_from_csv example_open_csv (py "sites.csv") (py "url")
     = Ok [py "a.com"].
Proof.
  assert (H : ~ In (py "url") [py "name"]).
  { intros [H|[]]. discriminate H. }
  split; [reflexivity|]. split; [exact H|].
  exact (load_domains_from_csv_column example_open_csv (py "sites.csv")
           (py "url") [py "name"] [] [[py "A"; py "a.com"]] eq_refl H
           (fun F => F)).
Defined.

(** X11 at the same CSV input. *)
Lemma load_domains_from_csv_entries_witness :
  load_domains_from_csv example_open_csv (py "sites.csv") (py "url")
  = Ok [py "a.com"]
  /\ Forall (fun d => d <> [] /\ trimmed d /\ normalize_domain d <> [])
            [py "a.com"].
Proof.
  split; [reflexivity|].
  exact (proj1 (load_domains_from_csv_entries example_open_csv
                  (py "sites.csv") (py "url") _ eq_refl)).
Defined.



(** X14 at an input file that does not exist. *)
Lemma main_input_failure_is_fatal_witness :
  (forall d ds,
      load_input example_open_text example_open_csv example_missing_args
      <> Ok (d :: ds))
  /\ exists line,
       example_main example_missing_args initial
       = (Exit 1, eprint line initial)
       /\ (load_input example_open_text example_open_csv example_missing_args
           = Ok [] ->
           line = py "No domains found in the input file.")
       /\ (forall m,
              load_input example_open_text example_open_csv
                         example_missing_args
              = Raise (FileNotFoundError m) ->
              line = py "Input file not found: "
                     ++ input_file example_missing_args)
       /\ (forall e,
              load_input example_open_text example_open_csv
                         example_missing_args = Raise e ->
              (forall m, e <> FileNotFoundError m) ->
              line = py "Error reading input file: " ++ str_of_exn e).
Proof.
  assert (H : forall d ds,
             load_input example_open_text example_open_csv
                        example_missing_args <> Ok (d :: ds)).
  { intros d ds E. discriminate E. }
  split; [exact H|].
  exact (main_input_failure_is_fatal nfkc_ascii ip_address_none Z
           example_network example_open_text example_open_csv
           example_write_file example_missing_args initial H).
Defined.


(** X16 at a command line without [-o]. *)
Lemma main_without_output_writes_nothing_witness :
  (output_csv example_quiet_args = None
   \/ output_csv example_quiet_args = Some [])
  /\ written (snd (example_main example_quiet_args initial))
     = written initial.
Proof.
  assert (H : output_csv example_quiet_args = None
              \/ output_csv example_quiet_args = Some [])
    by (left; reflexivity).
  split; [exact H|].
  exact (main_without_output_writes_nothing nfkc_ascii ip_address_none Z
           example_network example_open_text example_open_csv
           example_write_file example_quiet_args initial H).
Defined.

(** X17 at the run of the specification's example: one domain with the
    file, one failed domain, two domains in all. *)
Lemma print_summary_of_run_witness :
  check_all nfkc_ascii ip_address_none Z example_network
            [py "a.com"; py "b.com"] 5%Z [] initial
  = (Ok example_results,
     mkState [py "https://a.com/llms.txt"; py "https://b.com/llms.txt"]
             [] [])
  /\ failed_results example_results = filter no_status example_results
  /\ (count_with_llms example_results
      + List.length (failed_results example_results)
      <= List.length [py "a.com"; py "b.com"])%nat.
Proof.
  split; [reflexivity|].
  pose proof (print_summary_of_run nfkc_ascii ip_address_none Z
                example_network [py "a.com"; py "b.com"] 5%Z initial _ _
                eq_refl) as [_ [H1 [H2 _]]].
  split; [exact H1 | exact H2].
Defined.

(** X18 at the results of the specification's example. *)
Lemma csv_text_plain_witness :
  Forall (fun r => plain_field (domain r)) example_results
  /\ csv_text example_results
     = py "domain,contains_llms_txt" ++ [0x0d; 0x0a]
       ++ py "a.com,yes" ++ [0x0d; 0x0a]
       ++ py "b.com,no" ++ [0x0d; 0x0a].
Proof.
  assert (H : Forall (fun r => plain_field (domain r)) example_results)
    by (repeat constructor).
  split; [exact H|].
  exact (csv_text_plain example_results H).
Defined.

(** ** Reading back what [write_csv] wrote *)

(** *** The two descriptions of the reader agree *)

Lemma process_line_app (a b : pystr) (p : parser) :
  process_line p (a ++ b) = (x <- process_chars p a ;; process_line x b).
Proof.
  revert p. induction a as [|c a IH]; intros p; [reflexivity|].
  cbn [app process_line process_chars].
  destruct (process_char p c); cbn [bind]; [apply IH | reflexivity].
Qed.

Lemma process_chars_snoc (a : pystr) (c : char) (p : parser) :
  process_chars p (a ++ [c]) = (x <- process_chars p a ;; process_char x c).
Proof.
  revert p. induction a as [|d a IH]; intros p.
  - cbn. destruct (process_char p c); reflexivity.
  - cbn [app process_chars].
    destruct (process_char p d); cbn [bind]; [apply IH | reflexivity].
Qed.

Lemma lines_of_prefix (s cur : pystr) :
  cur <> [] \/ s <> [] ->
  exists x rest, lines_of cur s = (cur ++ x) :: rest.
Proof.
  revert cur. induction s as [|c t IH]; intros cur H.
  - destruct H as [H|H]; [|contradiction].
    destruct cur; [contradiction|].
    exists [], []. cbn [lines_of]. now rewrite app_nil_r.
  - cbn [lines_of]. destruct (c =? 0x0a); [now eexists _, _|].
    destruct (c =? 0x0d).
    + destruct t as [|c' t']; [now eexists _, _|].
      destruct (c' =? 0x0a); now eexists _, _.
    + destruct (IH (cur ++ [c])) as [x [rest Hx]].
      { left. destruct cur; discriminate. }
      exists (c :: x), rest. rewrite Hx, <- app_assoc. reflexivity.
Qed.

Lemma read_records_raise (s cur : pystr) (p0 : parser) (e : exn) :
  process_chars p0 cur = Raise e ->
  cur <> [] \/ s <> [] ->
  read_records (lines_of cur s) p0 = Broken e.
Proof.
  intros He H. destruct (lines_of_prefix s cur H) as [x [rest ->]].
  cbn [read_records]. rewrite process_line_app, He. reflexivity.
Qed.

(** The reader on the lines of a text, of which [cur] has been read, is
    the one-pass reader on the rest of the text. *)
Lemma scan_lines (n : nat) :
  forall (s cur : pystr) (p0 p : parser),
    (List.length s <= n)%nat ->
    process_chars p0 cur = Ok p ->
    read_records (lines_of cur s) p0 = scan s p (truthy cur).
Proof.
  induction n as [|n IH]; intros s cur p0 p Hlen Hp.
  - destruct s; [|cbn in Hlen; lia].
    cbn [lines_of scan]. destruct cur as [|c0 cur'].
    + cbn in Hp. injection Hp as <-. reflexivity.
    + cbn [truthy read_records].
      rewrite <- (app_nil_r (c0 :: cur')), process_line_app, Hp.
      reflexivity.
  - destruct s as [|c t].
    + apply (IH [] cur p0 p); [cbn; lia | exact Hp].
    + cbn [List.length] in Hlen.
      assert (Hsnoc : process_chars p0 (cur ++ [c]) = process_char p c).
      { rewrite process_chars_snoc, Hp. reflexivity. }
      assert (Hend : forall tail p1,
                 (List.length tail <= n)%nat ->
                 match pstate (process_eol p1) with
                 | START_RECORD =>
                     Next (pfields (process_eol p1))
                          (read_records (lines_of [] tail) fresh_parser)
                 | _ => read_records (lines_of [] tail) (process_eol p1)
                 end = line_end (fun q => scan tail q false) p1).
      { intros tail p1 Ht. unfold line_end.
        rewrite (IH tail [] fresh_parser fresh_parser Ht eq_refl).
        rewrite (IH tail [] (process_eol p1) (process_eol p1) Ht eq_refl).
        reflexivity. }
      cbn [lines_of scan].
      destruct (c =? 0x0a) eqn:Hnl.
      { cbn [read_records]. rewrite process_line_app, Hp. cbn [bind].
        cbn [process_line].
        destruct (process_char p c) as [p1|e]; cbn [bind]; [|reflexivity].
        apply Hend. lia. }
      destruct (c =? 0x0d) eqn:Hcr.
      { destruct t as [|c' t'].
        - cbn [read_records]. rewrite process_line_app, Hp. cbn [bind].
          cbn [process_line].
          destruct (process_char p c) as [p1|e]; cbn [bind]; [|reflexivity].
          apply Hend. cbn; lia.
        - destruct (c' =? 0x0a) eqn:Hnl'.
          + cbn [read_records]. rewrite process_line_app, Hp. cbn [bind].
            cbn [process_line].
            destruct (process_char p c) as [p1|e]; cbn [bind];
              [|reflexivity].
            destruct (process_char p1 c') as [p2|e]; cbn [bind];
              [|reflexivity].
            apply Hend. cbn [List.length] in Hlen. lia.
          + cbn [read_records]. rewrite process_line_app, Hp. cbn [bind].
            cbn [process_line].
            destruct (process_char p c) as [p1|e]; cbn [bind];
              [|reflexivity].
            apply Hend. lia. }
      destruct (process_char p c) as [p1|e] eqn:Hc.
      * rewrite (IH t (cur ++ [c]) p0 p1); [|lia|exact Hsnoc].
        destruct cur; reflexivity.
      * apply read_records_raise; [exact Hsnoc|].
        left. destruct cur; discriminate.
Qed.

Lemma csv_reader_scan (text : pystr) :
  csv_reader text = scan text fresh_parser false.
Proof.
  unfold csv_reader.
  exact (scan_lines (List.length text) text [] fresh_parser fresh_parser
           (le_n _) eq_refl).
Qed.

(** *** The reader on the text of the writer *)

Lemma scan_flag (t : pystr) (p : parser) (a b : bool) :
  t <> [] -> scan t p a = scan t p b.
Proof.
  destruct t; [contradiction | reflexivity].
Qed.

Lemma add_char_ok (p : parser) (st : rstate) (c : char) :
  N.of_nat (List.length (pfield p)) < field_limit ->
  add_char p st c = Ok (mkParser st (pfield p ++ [c]) (pfields p)).
Proof.
  intros H. unfold add_char.
  destruct (field_limit <=? N.of_nat (List.length (pfield p))) eqn:E;
    [|reflexivity].
  apply N.leb_le in E. lia.
Qed.

(** A character that does not end a line. *)
Lemma scan_step (c : char) (t : pystr) (p p1 : parser) (fl : bool) :
  process_char p c = Ok p1 ->
  (c =? 0x0a) = false -> (c =? 0x0d) = false ->
  scan (c :: t) p fl = scan t p1 true.
Proof.
  intros H Hnl Hcr. cbn [scan]. now rewrite H, Hnl, Hcr.
Qed.

(** The tests of the parser on a character that needs no quotes. *)
Lemma plain_char_tests (c : char) (f : pystr) :
  needs_quotes (c :: f) = false ->
  (c =? ch ",") = false /\ (c =? 0x22) = false
  /\ (c =? 0x0d) = false /\ (c =? 0x0a) = false
  /\ is_newline c = false /\ needs_quotes f = false.
Proof.
  unfold needs_quotes, is_newline. cbn [existsb].
  intros H. apply orb_false_elim in H as [H Hf].
  apply orb_false_elim in H as [H H4].
  apply orb_false_elim in H as [H H3].
  apply orb_false_elim in H as [H1 H2].
  rewrite H1, H2, H3, H4. repeat split; try reflexivity. exact Hf.
Qed.

Lemma length_snoc_bound (b f : pystr) (c : char) :
  N.of_nat (List.length (b ++ c :: f)) <= field_limit ->
  N.of_nat (List.length b) < field_limit
  /\ N.of_nat (List.length ((b ++ [c]) ++ f)) <= field_limit.
Proof.
  rewrite <- app_assoc. cbn [app]. rewrite length_app. cbn [List.length].
  lia.
Qed.

(** An unquoted field, behind its first character. *)
Lemma scan_in_field (f : pystr) :
  forall (p : parser) (t : pystr) (fl fl' : bool),
    pstate p = IN_FIELD ->
    needs_quotes f = false ->
    N.of_nat (List.length (pfield p ++ f)) <= field_limit ->
    t <> [] ->
    scan (f ++ t) p fl
    = scan t (mkParser IN_FIELD (pfield p ++ f) (pfields p)) fl'.
Proof.
  induction f as [|c f IH]; intros p t fl fl' Hst Hplain Hfit Ht.
  - cbn [app]. rewrite app_nil_r. destruct p as [st b fs].
    cbn in Hst. subst st. now apply scan_flag.
  - destruct (plain_char_tests c f Hplain)
      as [Hcomma [Hq [Hcr [Hnl [Hnew Hf]]]]].
    destruct (length_snoc_bound _ _ _ Hfit) as [Hroom Hfit'].
    cbn [app scan]. unfold process_char. rewrite Hst, Hnew, Hcomma.
    rewrite (add_char_ok p IN_FIELD c Hroom), Hnl, Hcr.
    rewrite (IH (mkParser IN_FIELD (pfield p ++ [c]) (pfields p))
                t true fl' eq_refl Hf Hfit' Ht).
    cbn [pfield pfields]. now rewrite <- app_assoc.
Qed.

(** A step inside a quoted field: any character but the quote is added to
    the field, a line ending included. *)
Lemma scan_quoted_step (c : char) (p : parser) (t : pystr)
      (fl fl' : bool) :
  pstate p = IN_QUOTED_FIELD ->
  (c =? 0x22) = false ->
  N.of_nat (List.length (pfield p)) < field_limit ->
  t <> [] ->
  scan (c :: t) p fl
  = scan t (mkParser IN_QUOTED_FIELD (pfield p ++ [c]) (pfields p)) fl'.
Proof.
  intros Hst Hq Hroom Ht.
  set (p1 := mkParser IN_QUOTED_FIELD (pfield p ++ [c]) (pfields p)).
  assert (Hpc : process_char p c = Ok p1).
  { unfold process_char. rewrite Hst, Hq.
    exact (add_char_ok p IN_QUOTED_FIELD c Hroom). }
  cbn [scan]. rewrite Hpc.
  assert (Hend : forall tail, tail <> [] ->
                 line_end (fun q => scan tail q false) p1
                 = scan tail p1 fl').
  { intros tail Htail. unfold line_end. cbn. now apply scan_flag. }
  destruct (c =? 0x0a); [now apply Hend|].
  destruct (c =? 0x0d) eqn:Hcr; [|now apply scan_flag].
  destruct t as [|c' t']; [contradiction|].
  destruct (c' =? 0x0a) eqn:Hnl'; [|now apply Hend].
  (* a carriage return and a line feed: one line ending *)
  cbn [scan]. rewrite Hnl'.
  destruct (process_char p1 c') as [p2|e]; reflexivity.
Qed.

(** The content of a quoted field, up to the closing quote. *)
Lemma scan_in_quoted (f : pystr) :
  forall (p : parser) (t : pystr) (fl fl' : bool),
    pstate p = IN_QUOTED_FIELD ->
    N.of_nat (List.length (pfield p ++ f)) <= field_limit ->
    scan (double_quotes f ++ 0x22 :: t) p fl
    = scan (0x22 :: t)
           (mkParser IN_QUOTED_FIELD (pfield p ++ f) (pfields p)) fl'.
Proof.
  induction f as [|c f IH]; intros p t fl fl' Hst Hfit.
  - cbn [double_quotes flat_map app]. rewrite app_nil_r.
    destruct p as [st b fs]. cbn in Hst. subst st.
    apply scan_flag. discriminate.
  - destruct (length_snoc_bound _ _ _ Hfit) as [Hroom Hfit'].
    unfold double_quotes in *. cbn [flat_map].
    destruct (c =? 0x22) eqn:Hq.
    + (* a quote, written twice *)
      apply N.eqb_eq in Hq. subst c. cbn [app].
      rewrite (scan_step 0x22 _ p (set_state p QUOTE_IN_QUOTED_FIELD) fl);
        [| unfold process_char; now rewrite Hst | reflexivity | reflexivity].
      rewrite (scan_step 0x22 _ (set_state p QUOTE_IN_QUOTED_FIELD)
                 (mkParser IN_QUOTED_FIELD (pfield p ++ [0x22]) (pfields p))
                 true);
        [| exact (add_char_ok (set_state p QUOTE_IN_QUOTED_FIELD)
                    IN_QUOTED_FIELD 0x22 Hroom)
         | reflexivity | reflexivity].
      rewrite (IH (mkParser IN_QUOTED_FIELD (pfield p ++ [0x22])
                            (pfields p))
                  t true fl' eq_refl Hfit').
      cbn [pfield pfields]. now rewrite <- app_assoc.
    + cbn [app].
      rewrite (scan_quoted_step c p _ fl true Hst Hq Hroom).
      * rewrite (IH (mkParser IN_QUOTED_FIELD (pfield p ++ [c])
                              (pfields p))
                    t true fl' eq_refl Hfit').
        cbn [pfield pfields]. now rewrite <- app_assoc.
      * intros E. apply app_eq_nil in E as [_ E]. discriminate E.
Qed.

Lemma between_fields_start (p : parser) (c : char) :
  between_fields p ->
  is_newline c = false ->
  process_char p c
  = if c =? 0x22 then Ok (set_state p IN_QUOTED_FIELD)
    else if c =? ch "," then Ok (save_field p START_FIELD)
    else add_char p IN_FIELD c.
Proof.
  intros [_ [H|H]] Hn; unfold process_char; rewrite H, Hn; reflexivity.
Qed.

(** The content of a field as [csv.writer] writes it: the reader is left
    before the delimiter with the field read. *)
Lemma scan_field (f : pystr) (p : parser) (t : pystr) :
  between_fields p -> fits f -> t <> [] ->
  exists p',
    after_field p' f /\ pfields p' = pfields p
    /\ (f = [] -> p' = p)
    /\ forall fl fl', scan (csv_field f ++ t) p fl = scan t p' fl'.
Proof.
  intros Hb Hfit Ht. pose proof Hb as [Hempty Hstate].
  unfold csv_field. destruct (needs_quotes f) eqn:Hq.
  - (* quoted *)
    exists (mkParser QUOTE_IN_QUOTED_FIELD f (pfields p)).
    split; [split; [reflexivity | right; left; reflexivity]|].
    split; [reflexivity|].
    split; [intros ->; discriminate Hq|].
    intros fl fl'.
    rewrite <- !app_assoc. cbn [app].
    rewrite (scan_step 0x22 _ p (set_state p IN_QUOTED_FIELD) fl);
      [| now rewrite (between_fields_start p 0x22 Hb eq_refl)
       | reflexivity | reflexivity].
    etransitivity.
    { apply (scan_in_quoted f (set_state p IN_QUOTED_FIELD) t true true
               eq_refl).
      cbn [set_state pfield]. rewrite Hempty. exact Hfit. }
    cbn [set_state pfield pfields]. rewrite Hempty. cbn [app].
    etransitivity.
    { apply (scan_step 0x22 t _
               (mkParser QUOTE_IN_QUOTED_FIELD f (pfields p)) true);
        reflexivity. }
    now apply scan_flag.
  - destruct f as [|c f'].
    + (* empty, unquoted *)
      exists p. split; [split; [exact Hempty | right; right; now split]|].
      split; [reflexivity|]. split; [reflexivity|].
      intros fl fl'. cbn [app]. now apply scan_flag.
    + (* unquoted *)
      exists (mkParser IN_FIELD (c :: f') (pfields p)).
      split; [split; [reflexivity | left; reflexivity]|].
      split; [reflexivity|]. split; [discriminate|].
      intros fl fl'.
      destruct (plain_char_tests c f' Hq)
        as [Hcomma [Hquote [Hcr [Hnl [Hnew Hf]]]]].
      cbn [app scan].
      rewrite (between_fields_start p c Hb Hnew), Hquote, Hcomma.
      rewrite add_char_ok, Hnl, Hcr.
      * rewrite Hempty.
        rewrite (scan_in_field f' (mkParser IN_FIELD ([] ++ [c])
                                            (pfields p))
                   t true fl' eq_refl Hf); [reflexivity | | exact Ht].
        cbn [pfield app]. exact Hfit.
      * rewrite Hempty. cbn. unfold field_limit. lia.
Qed.

(** The comma behind a field. *)
Lemma scan_comma (p : parser) (f t : pystr) (fl : bool) :
  after_field p f ->
  scan (ch "," :: t) p fl
  = scan t (mkParser START_FIELD [] (pfields p ++ [f])) true.
Proof.
  intros [Hf Hst]. cbn [scan]. unfold process_char.
  destruct Hst as [H|[H|[_ [H|H]]]]; rewrite H; cbn; subst f;
    reflexivity.
Qed.

(** The line ending behind the last field of a record. *)
Lemma scan_crlf (p : parser) (f rest : pystr) (fl : bool) :
  after_field p f ->
  pstate p <> START_RECORD ->
  scan (0x0d :: 0x0a :: rest) p fl
  = Next (pfields p ++ [f]) (scan rest fresh_parser false).
Proof.
  intros [Hf Hst] Hne. cbn [scan]. unfold process_char.
  destruct Hst as [H|[H|[_ [H|H]]]]; [| | contradiction |];
    rewrite H; cbn; subst f; reflexivity.
Qed.

Lemma csv_field_nonempty (f : pystr) : f <> [] -> csv_field f <> [].
Proof.
  intros H. unfold csv_field. destruct (needs_quotes f); [discriminate|].
  exact H.
Qed.

(** The fields of a record, from a field boundary to the end of the
    line. *)
Lemma scan_fields (fs : list pystr) :
  forall (f : pystr) (p : parser) (rest : pystr) (fl : bool),
    between_fields p ->
    Forall fits (f :: fs) ->
    (pstate p = START_RECORD -> f = [] -> fs <> []) ->
    scan (join (py ",") (map csv_field (f :: fs))
          ++ 0x0d :: 0x0a :: rest) p fl
    = Next (pfields p ++ f :: fs) (scan rest fresh_parser false).
Proof.
  induction fs as [|g gs IH]; intros f p rest fl Hb Hfits Hstart.
  - cbn [map join].
    destruct (scan_field f p (0x0d :: 0x0a :: rest) Hb)
      as [p' [Haf [Hfs [Hsame Hscan]]]];
      [now inversion Hfits | discriminate|].
    rewrite (Hscan fl true), <- Hfs.
    apply scan_crlf; [exact Haf|].
    intros Hrec. destruct Haf as [Hf [H|[H|[Hnil _]]]]; try congruence.
    rewrite (Hsame Hnil) in Hrec. now apply (Hstart Hrec Hnil).
  - change (join (py ",") (map csv_field (f :: g :: gs)))
      with (csv_field f ++ py ","
            ++ join (py ",") (map csv_field (g :: gs))).
    rewrite <- !app_assoc.
    destruct (scan_field f p
                (py "," ++ join (py ",") (map csv_field (g :: gs))
                 ++ 0x0d :: 0x0a :: rest) Hb)
      as [p' [Haf [Hfs [_ Hscan]]]];
      [now inversion Hfits | discriminate|].
    rewrite (Hscan fl true). change (py "," ++ ?x) with (ch "," :: x).
    rewrite (scan_comma p' f _ true Haf).
    rewrite IH.
    + cbn [pfields]. rewrite Hfs, <- app_assoc. reflexivity.
    + split; [reflexivity | right; reflexivity].
    + now inversion Hfits.
    + discriminate.
Qed.

(** Except for the record of one empty field, the text of a record is
    its fields, joined by commas, and the line ending. *)
Lemma writerow_join (f : pystr) (fs : list pystr) :
  f <> [] \/ fs <> [] ->
  writerow (f :: fs)
  = join (py ",") (map csv_field (f :: fs)) ++ [0x0d; 0x0a].
Proof.
  intros H. unfold writerow.
  assert (Hne : join (py ",") (map csv_field (f :: fs)) <> []).
  { destruct fs as [|g gs]; cbn [map join].
    - apply csv_field_nonempty. destruct H as [H|H]; [exact H|].
      contradiction.
    - intros E. apply app_eq_nil in E as [_ E]. discriminate E. }
  cbv zeta.
  destruct (join (py ",") (map csv_field (f :: fs))); [contradiction|].
  reflexivity.
Qed.

(** One record: the reader yields the fields the writer was given. *)
Lemma scan_writerow (fields : list pystr) (rest : pystr) (fl : bool) :
  Forall fits fields ->
  scan (writerow fields ++ rest) fresh_parser fl
  = Next fields (scan rest fresh_parser false).
Proof.
  intros Hfits. destruct fields as [|f fs]; [reflexivity|].
  destruct f as [|c f']; [destruct fs as [|g gs]; [reflexivity|]|].
  - rewrite writerow_join by (right; discriminate).
    rewrite <- app_assoc.
    apply (scan_fields (g :: gs) [] fresh_parser rest fl);
      [split; [reflexivity | left; reflexivity] | exact Hfits
      | discriminate].
  - rewrite writerow_join by (left; discriminate).
    rewrite <- app_assoc.
    apply (scan_fields fs (c :: f') fresh_parser rest fl);
      [split; [reflexivity | left; reflexivity] | exact Hfits
      | discriminate].
Qed.

(** The reader gives back the records the writer was given, when every
    field is within the field size limit. *)
Lemma csv_reader_writerows (rows : list (list pystr)) :
  Forall (Forall fits) rows ->
  csv_reader (writerows rows) = of_list rows.
Proof.
  intros H. rewrite csv_reader_scan. unfold writerows.
  induction H as [|row rest Hrow _ IH]; [reflexivity|].
  cbn [flat_map of_list]. rewrite (scan_writerow row _ false Hrow).
  now rewrite IH.
Qed.

(** *** [write_csv], read back *)

Lemma csv_text_writerows (results : list DomainCheckResult) :
  csv_text results
  = writerows ([py "domain"; py "contains_llms_txt"]
               :: map csv_fields results).
Proof.
  unfold csv_text, writerows. cbn [flat_map]. f_equal.
  induction results as [|r rest IH]; [reflexivity|].
  cbn [csv_rows map flat_map]. now rewrite IH.
Qed.

Lemma fits_short (f : pystr) :
  (N.of_nat (List.length f) <=? field_limit) = true -> fits f.
Proof.
  intros H. now apply N.leb_le.
Qed.

Lemma csv_records_fit (results : list DomainCheckResult) :
  Forall (fun r => fits (domain r)) results ->
  Forall (Forall fits)
         ([py "domain"; py "contains_llms_txt"] :: map csv_fields results).
Proof.
  intros H. constructor.
  - repeat constructor; apply fits_short; reflexivity.
  - induction H as [|r rest Hr _ IH]; [constructor|].
    cbn [map]. constructor; [|exact IH].
    unfold csv_fields. constructor; [exact Hr|].
    constructor; [|constructor].
    destruct (has_llms_txt r); apply fits_short; reflexivity.
Qed.

(** X19: the CSV text [write_csv] writes reads back, with [csv.reader], as
    the header record and one record per result, in order, holding the
    domain and [yes] or [no] unchanged, whatever characters the domains
    hold (commas, quotes and line breaks included), as long as no domain
    is longer than the reader's field size limit. *)
Theorem csv_text_reads_back (results : list DomainCheckResult) :
  Forall (fun r => fits (domain r)) results ->
  csv_reader (csv_text results)
  = of_list ([py "domain"; py "contains_llms_txt"]
             :: map (fun r => [domain r;
                               if has_llms_txt r then py "yes" else py "no"])
                    results).
Proof.
  intros H. rewrite csv_text_writerows.
  exact (csv_reader_writerows _ (csv_records_fit results H)).
Qed.

Lemma domains_of_records (results : list DomainCheckResult) :
  Forall (fun r => usable (domain r)) results ->
  filter truthy
    (map (fun row => strip (cell_at 0 row)) (map csv_fields results))
  = map domain results.
Proof.
  induction 1 as [|r rest [Hne Htr] _ IH]; [reflexivity|].
  cbn [map filter]. rewrite IH. unfold cell_at. cbn [csv_fields nth].
  rewrite (strip_id _ Htr).
  destruct (domain r) as [|c d']; [contradiction | reflexivity].
Qed.

(** X20: the report can be fed back as input.  When the file
    [load_domains_from_csv] opens holds the text [write_csv] wrote for a
    list of results, loading the column [domain] returns the domains of
    those results, in order, provided each is usable (not empty, no white
    space at either end, as every loaded entry is) and within the field
    size limit. *)
Theorem csv_report_loads_as_input
        (open_csv : pystr -> result (stream (list pystr)))
        (path : pystr) (results : list DomainCheckResult) :
  open_csv path = Ok (csv_reader (csv_text results)) ->
  Forall (fun r => fits (domain r)) results ->
  Forall (fun r => usable (domain r)) results ->
  load_domains_from_csv open_csv path (py "domain")
  = Ok (map domain results).
Proof.
  intros Hopen Hfit Huse.
  rewrite csv_text_writerows in Hopen.
  rewrite (csv_reader_writerows _ (csv_records_fit results Hfit)) in Hopen.
  unfold load_domains_from_csv. rewrite Hopen.
  cbn [bind of_list fieldnames columns].
  change (str_in (py "domain") [py "domain"; py "contains_llms_txt"])
    with true.
  cbn [negb].
  rewrite <- (domains_of_records results Huse).
  assert (Hpost : ~ In (py "domain") [py "contains_llms_txt"]).
  { intros [H|[]]. discriminate H. }
  exact (load_csv_loop_unique_column [] [py "contains_llms_txt"]
           (py "domain") (map csv_fields results) [] (fun F => F) Hpost).
Qed.

Lemma usable_example (d : pystr) :
  strip d = d -> truthy d = true -> usable d.
Proof.
  intros Hs Ht. rewrite <- Hs. apply usable_strip. now rewrite Hs.
Qed.

(** X19 at the results of the specification's example. *)
Lemma csv_text_reads_back_witness :
  Forall (fun r => fits (domain r)) example_results
  /\ csv_reader (csv_text example_results)
     = of_list [[py "domain"; py "contains_llms_txt"];
                [py "a.com"; py "yes"]; [py "b.com"; py "no"]].
Proof.
  assert (H : Forall (fun r => fits (domain r)) example_results).
  { repeat constructor; apply fits_short; reflexivity. }
  split; [exact H|].
  exact (csv_text_reads_back example_results H).
Defined.

(** X20 at the report written for the specification's example. *)
Lemma csv_report_loads_as_input_witness :
  example_open_report (py "out.csv")
  = Ok (csv_reader (csv_text example_results))
  /\ Forall (fun r => fits (domain r)) example_results
  /\ Forall (fun r => usable (domain r)) example_results
  /\ load_domains_from_csv example_open_report (py "out.csv") (py "domain")
     = Ok [py "a.com"; py "b.com"].
Proof.
  assert (H1 : Forall (fun r => fits (domain r)) example_results).
  { repeat constructor; apply fits_short; reflexivity. }
  assert (H2 : Forall (fun r => usable (domain r)) example_results).
  { repeat constructor; apply usable_example; reflexivity. }
  split; [reflexivity|]. split; [exact H1|]. split; [exact H2|].
  exact (csv_report_loads_as_input example_open_report (py "out.csv")
           example_results eq_refl H1 H2).
Defined.
